(** * python-flysystem: the Google Drive and Hugging Face adapters

    A shallow embedding of [src/flysystem/adapters/drive.py] and
    [src/flysystem/adapters/hgface.py].

    Adapter methods are functions in a state-and-exception monad [M] over a
    [World] that holds everything the adapters talk to: the Drive service,
    the Hugging Face hub, the local file system and the console.  The
    vendor SDKs are collaborators: what a call returns is read from the
    [World] (so a theorem quantified over worlds covers every backend
    answer), and every remote call may raise the next entry of a fault
    script. *)

From Stdlib Require Import String Ascii ZArith List Lia Bool.
From stdpp Require Import gmap strings list fin_maps pretty.

Local Open Scope string_scope.
Local Open Scope list_scope.

(** ** Python values and exceptions *)

Module Py.

(** Exception classes that occur in the two adapters, either named in an
    [except] clause or raised by a builtin the adapters call.  All of them
    derive from [Exception]. *)
Inductive ExnClass :=
  | NotImplementedError
  | ValueError
  | TypeError
  | KeyError
  | IndexError
  | EOFError
  | RecursionError
  | UnpicklingError
  | JSONDecodeError          (* subclass of ValueError *)
  | TransportError           (* google.auth.exceptions *)
  | RefreshError             (* google.auth.exceptions *)
  | HttpError                (* googleapiclient.errors *)
  | FileNotFoundError        (* subclass of OSError *)
  | PermissionError          (* subclass of OSError *)
  | OSError                  (* any other OSError: FileExistsError, ... *)
  | HfHubHTTPError
  | RepositoryNotFoundError  (* subclass of HfHubHTTPError *)
  | RevisionNotFoundError    (* subclass of HfHubHTTPError *)
  | ShutilError
  | OtherException.

(** A raised Python exception: its class, [str(e)], and the [reason]
    attribute that the adapters read from an [HttpError]. *)
Record Exn := mkExn {
  exn_class : ExnClass;
  exn_str : string;
  exn_reason : string
}.

(** What a library routine does when called: it returns or it raises. *)
Inductive Outcome (A : Type) :=
  | Returns (a : A)
  | Raises (e : Exn).
Arguments Returns {A} a.
Arguments Raises {A} e.

(** The Python values that cross the adapter interface. *)
Inductive Value :=
  | VNone
  | VBool (b : bool)
  | VInt (z : Z)
  | VStr (s : string)
  | VBytes (b : list Byte.byte)
  | VStrList (l : list string)
  | VDict (d : gmap string string).

Definition exn_class_eqb (a b : ExnClass) : bool :=
  match a, b with
  | NotImplementedError, NotImplementedError
  | ValueError, ValueError
  | TypeError, TypeError
  | KeyError, KeyError
  | IndexError, IndexError
  | EOFError, EOFError
  | RecursionError, RecursionError
  | UnpicklingError, UnpicklingError
  | JSONDecodeError, JSONDecodeError
  | TransportError, TransportError
  | RefreshError, RefreshError
  | HttpError, HttpError
  | FileNotFoundError, FileNotFoundError
  | PermissionError, PermissionError
  | OSError, OSError
  | HfHubHTTPError, HfHubHTTPError
  | RepositoryNotFoundError, RepositoryNotFoundError
  | RevisionNotFoundError, RevisionNotFoundError
  | ShutilError, ShutilError
  | OtherException, OtherException => true
  | _, _ => false
  end.

(** [isinstance e cls] for the classes above. *)
Definition isinstance (e : Exn) (cls : ExnClass) : bool :=
  exn_class_eqb (exn_class e) cls ||
  match exn_class e, cls with
  | JSONDecodeError, ValueError => true
  | (FileNotFoundError | PermissionError), OSError => true
  | (RepositoryNotFoundError | RevisionNotFoundError), HfHubHTTPError => true
  | _, _ => false
  end.

(** Truthiness of an optional string: [None] and [""] are falsy. *)
Definition truthy (s : option string) : bool :=
  match s with
  | Some (String _ _) => true
  | _ => false
  end.

(** *** Strings *)

Fixpoint take_while {A} (p : A -> bool) (l : list A) : list A :=
  match l with
  | x :: rest => if p x then x :: take_while p rest else []
  | [] => []
  end.

Fixpoint drop_while {A} (p : A -> bool) (l : list A) : list A :=
  match l with
  | x :: rest => if p x then drop_while p rest else l
  | [] => []
  end.

Definition chars (s : string) : list ascii := list_ascii_of_string s.
Definition str (l : list ascii) : string := string_of_list_ascii l.

Definition slash : ascii := "/"%char.

Definition startswith (s prefix : string) : bool := String.prefix prefix s.

Definition endswith_slash (s : string) : bool :=
  match rev (chars s) with
  | c :: _ => Ascii.eqb c slash
  | [] => false
  end.

(** [needle in haystack] on two strings: substring search. *)
Fixpoint str_contains (needle haystack : string) : bool :=
  String.prefix needle haystack ||
  match haystack with
  | EmptyString => false
  | String _ rest => str_contains needle rest
  end.

(** [", ".join(parts)] *)
Fixpoint str_join (sep : string) (parts : list string) : string :=
  match parts with
  | [] => ""
  | [p] => p
  | p :: rest => p +:+ sep +:+ str_join sep rest
  end.

(** The characters after the last ["/"]: [s.split("/")[-1]], which is also
    [posixpath.basename s]. *)
Definition after_last_slash (s : string) : string :=
  str (rev (take_while (fun c => negb (Ascii.eqb c slash)) (rev (chars s)))).

Definition basename (p : string) : string := after_last_slash p.

(** [posixpath.join a b] *)
Definition join (a b : string) : string :=
  if startswith b "/" then b
  else if (String.eqb a "" || endswith_slash a)%bool then a +:+ b
  else a +:+ "/" +:+ b.

(** [posixpath.dirname p] *)
Definition dirname (p : string) : string :=
  let head := rev (drop_while (fun c => negb (Ascii.eqb c slash)) (rev (chars p))) in
  if forallb (fun c => Ascii.eqb c slash) head then str head
  else str (rev (drop_while (fun c => Ascii.eqb c slash) (rev head))).

(** *** [int(str)] on an ASCII line

    Surrounding white space is stripped, one sign is allowed, and the
    digits may be grouped by single underscores.  Anything else raises
    [ValueError] ([None] here).  Digits and spaces outside ASCII, which
    [int] also accepts, and the interpreter's bound on the number of
    digits are left out: [None] is exact on ASCII lines ([is_ascii]). *)

Definition is_space (c : ascii) : bool :=
  let n := nat_of_ascii c in ((9 <=? n) && (n <=? 13) || (n =? 32))%nat.

Definition is_digit (c : ascii) : bool :=
  let n := nat_of_ascii c in ((48 <=? n) && (n <=? 57))%nat.

Definition digit_value (c : ascii) : Z := Z.of_nat (nat_of_ascii c - 48).

Definition strip (l : list ascii) : list ascii :=
  rev (drop_while is_space (rev (drop_while is_space l))).

Fixpoint parse_digits (acc : Z) (after_digit : bool) (l : list ascii) : option Z :=
  match l with
  | [] => if after_digit then Some acc else None
  | c :: rest =>
      if is_digit c then parse_digits (acc * 10 + digit_value c) true rest
      else if (Ascii.eqb c "_" && after_digit)%bool then parse_digits acc false rest
      else None
  end.

Definition int (s : string) : option Z :=
  match strip (chars s) with
  | "-"%char :: rest => Z.opp <$> parse_digits 0 false rest
  | "+"%char :: rest => parse_digits 0 false rest
  | rest => parse_digits 0 false rest
  end.

Definition is_ascii (s : string) : bool :=
  forallb (fun c => (nat_of_ascii c <? 128)%nat) (chars s).

End Py.

(** ** The adapter error taxonomy ([flysystem/error.py]) *)

Module Error.

(** Modelled from the spec: the module [flysystem/error.py] is not part of
    the sources at hand.  The kinds are the taxonomy of the specification;
    the adapters import five of them ([UnableToCreateDirectory],
    [UnableToDownload], [UnableToFindDriveToken] -- the specification's
    [UnableToFindToken] --, [UnableToReadCredentialFile], [UnableToUpload])
    and build each error with [Kind.with_location(location, message)]. *)
Inductive Kind :=
  | UnableToCreateDirectory
  | UnableToUpload
  | UnableToDownload
  | UnableToFindDriveToken
  | UnableToReadCredentialFile
  | UnsupportedOperation
  | InvalidChoice
  | NotFound.

Record AdapterError := mkError {
  kind : Kind;
  location : string;
  message : string
}.

End Error.

(** What a [raise] carries: a Python exception of the language or of a
    vendor library, or an error of the adapter taxonomy. *)
Inductive Raised :=
  | Native (e : Py.Exn)
  | Adapter (e : Error.AdapterError).

Definition with_location (k : Error.Kind) (location message : string) : Raised :=
  Adapter (Error.mkError k location message).

Definition native (c : Py.ExnClass) (text : string) : Raised :=
  Native (Py.mkExn c text text).

Inductive Res (A : Type) :=
  | Ok (a : A)
  | Raise (r : Raised).
Arguments Ok {A} a.
Arguments Raise {A} r.

(** ** The world the adapters run in *)

(** One owner entry of a Drive item: a dict in which either key may be
    missing. *)
Record Owner := mkOwner {
  displayName : option string;
  emailAddress : option string
}.

(** A Drive item as the [files().list] call returns it: a dict, each of
    whose keys may be missing.  The adapter indexes some keys
    ([file["name"]], which raises [KeyError] on a missing key) and reads
    others with [.get] ([size], [owners]). *)
Record DriveFile := mkFile {
  f_id : option string;
  f_name : option string;
  f_mimeType : option string;
  f_createdTime : option string;
  f_size : option string;
  f_owners : option (list Owner)
}.

(** The answer of [files().list(...).execute()]: a dict that may lack the
    key ["files"]. *)
Record ListResponse := mkResponse {
  r_files : option (list DriveFile)
}.

(** The body of a [files().create] request: the [file_metadata] dict. *)
Record Metadata := mkMetadata {
  md_name : string;
  md_mimeType : option string;
  md_parents : option (list string)
}.

(** One [files().create(body=..., media_body=...)] request as the service
    received it, with the id it answered. *)
Record Created := mkCreated {
  c_id : string;
  c_body : Metadata;
  c_media : option (list Byte.byte)
}.

(** What the adapter reads of a [google.oauth2] credential object. *)
Record Credentials := mkCredentials {
  token : string;
  valid : bool;
  expired : bool;
  refresh_token : option string
}.

Inductive FsEntry :=
  | Dir
  | File (content : list Byte.byte).

(** Calls into the vendor libraries and [shutil], in the order made. *)
Inductive LibCall :=
  | CredsRefresh (c : Credentials)
  | FromClientSecretsFile (creds_path : string)
  | RunLocalServer (flow : string)
  | Build (c : option Credentials)
  | SnapshotDownload (repo_id local_dir : string)
  | ListRepoFiles (repo_id : string)
  | HfHubDownload (repo_id filename local_dir : string)
  | ShutilMove (src dst : string)
  | ShutilRmtree (path : string)
  | UploadFolder (folder_path path_in_repo repo_id commit_message : string)
                 (revision : option string)
  | UploadFile (path path_in_repo repo_id commit_message : string)
               (revision : option string).

(** The collaborators' answers.  Nothing here changes while an adapter
    method runs. *)
Record Env := mkEnv {
  (* pickle *)
  unpickle : list Byte.byte -> Py.Outcome (option Credentials);  (* [pickle.load] *)
  pickle_dumps : option Credentials -> list Byte.byte;    (* [pickle.dump] *)
  (* OAuth *)
  oauth_refresh : Credentials -> Py.Outcome Credentials; (* [creds.refresh(Request())] *)
  client_secrets : string -> Py.Outcome string;    (* [from_client_secrets_file] *)
  local_server : string -> Py.Outcome (option Credentials); (* [flow.run_local_server] *)
  (* Google Drive *)
  drive_list : string -> ListResponse;             (* answer to a [q=] query *)
  drive_media : string -> list (list Byte.byte);   (* chunks served for a file id *)
  drive_new_id : nat -> string;                    (* id of the n-th created item *)
  (* Hugging Face hub *)
  hub_files : string -> list string                (* [list_repo_files] of a repo *)
}.

Record World := mkWorld {
  env : Env;
  drive_created : list Created;      (* create requests served, oldest first *)
  calls : list LibCall;              (* oldest first *)
  (* outcome of each remote or library call, in order: [Some e] raises *)
  faults : list (option Py.Exn);
  (* local machine *)
  fs : gmap string FsEntry;
  stdout : list string;              (* oldest first *)
  stdin : list string                (* lines still to be read *)
}.

Definition set_created (w : World) (c : list Created) : World :=
  mkWorld (env w) c (calls w) (faults w) (fs w) (stdout w) (stdin w).

Definition set_calls (w : World) (c : list LibCall) : World :=
  mkWorld (env w) (drive_created w) c (faults w) (fs w) (stdout w) (stdin w).

Definition set_faults (w : World) (f : list (option Py.Exn)) : World :=
  mkWorld (env w) (drive_created w) (calls w) f (fs w) (stdout w) (stdin w).

Definition set_fs (w : World) (m : gmap string FsEntry) : World :=
  mkWorld (env w) (drive_created w) (calls w) (faults w) m (stdout w) (stdin w).

Definition set_stdout (w : World) (o : list string) : World :=
  mkWorld (env w) (drive_created w) (calls w) (faults w) (fs w) o (stdin w).

Definition set_stdin (w : World) (i : list string) : World :=
  mkWorld (env w) (drive_created w) (calls w) (faults w) (fs w) (stdout w) i.

(** ** The monad of adapter code: state passing with exceptions *)

Definition M (A : Type) : Type := World -> Res A * World.

Definition ret {A} (a : A) : M A := fun w => (Ok a, w).

Definition raise {A} (r : Raised) : M A := fun w => (Raise r, w).

Definition bind {A B} (m : M A) (k : A -> M B) : M B :=
  fun w =>
    match m w with
    | (Ok a, w') => k a w'
    | (Raise r, w') => (Raise r, w')
    end.

(** [try: m  except ...: handler] where every clause re-raises; the state
    reached when the exception was raised is kept. *)
Definition try_except {A} (m : M A) (handler : Raised -> M A) : M A :=
  fun w =>
    match m w with
    | (Ok a, w') => (Ok a, w')
    | (Raise r, w') => handler r w'
    end.

Declare Scope m_scope.
Delimit Scope m_scope with M.
Notation "x <- m ;; k" := (bind m (fun x => k))
  (at level 100, m at next level, right associativity) : m_scope.
Notation "m ;;; k" := (bind m (fun _ => k))
  (at level 100, right associativity) : m_scope.
Local Open Scope m_scope.

(** A call that leaves the process (an SDK request, a library routine):
    it raises what the fault script says, if anything. *)
Definition lift {A} (o : Py.Outcome A) : M A :=
  fun w =>
    match o with
    | Py.Returns a => (Ok a, w)
    | Py.Raises e => (Raise (Native e), w)
    end.

Definition ask : M Env := fun w => (Ok (env w), w).

Definition log_call (c : LibCall) : M unit :=
  fun w => (Ok tt, set_calls w (calls w ++ [c])).

Fixpoint for_each {A} (items : list A) (body : A -> M unit) : M unit :=
  match items with
  | [] => ret tt
  | item :: rest => body item ;;; for_each rest body
  end.

Definition remote_call : M unit :=
  fun w =>
    match faults w with
    | Some e :: rest => (Raise (Native e), set_faults w rest)
    | _ => (Ok tt, set_faults w (tail (faults w)))
    end.

(** *** Console *)

Definition print (line : string) : M unit :=
  fun w => (Ok tt, set_stdout w (stdout w ++ [line])).

(** [input(prompt)]: the prompt is written, then one line is read;
    end of input raises [EOFError]. *)
Definition input (prompt : string) : M string :=
  fun w =>
    let w' := set_stdout w (stdout w ++ [prompt]) in
    match stdin w with
    | line :: rest => (Ok line, set_stdin w' rest)
    | [] => (Raise (native Py.EOFError "EOF when reading a line"), w')
    end.

(** *** Local file system: a map from path strings to entries *)

Fixpoint dir_prefixes_from (acc : string) (in_component : bool) (s : string) : list string :=
  match s with
  | EmptyString => if in_component then [acc] else []
  | String c rest =>
      if Ascii.eqb c Py.slash
      then (if in_component then [acc] else []) ++
           dir_prefixes_from (acc +:+ "/") false rest
      else dir_prefixes_from (acc +:+ String c "") true rest
  end.

(** The path itself preceded by its ancestors, outermost first. *)
Definition dir_prefixes (path : string) : list string :=
  dir_prefixes_from "" false path.

Fixpoint mkdirs (ps : list string) (m : gmap string FsEntry) : Res (gmap string FsEntry) :=
  match ps with
  | [] => Ok m
  | p :: rest =>
      match m !! p with
      | None => mkdirs rest (<[p := Dir]> m)
      | Some Dir => mkdirs rest m
      | Some (File _) => Raise (native Py.OSError ("File exists: " +:+ p))
      end
  end.

(** [os.makedirs(path, exist_ok=True)]: the empty path names nothing;
    the root, which has no component to create, is there already. *)
Definition makedirs (path : string) : M unit :=
  fun w =>
    if String.eqb path ""
    then (Raise (native Py.FileNotFoundError ("No such file or directory: " +:+ path)), w)
    else
      match mkdirs (dir_prefixes path) (fs w) with
      | Ok m => (Ok tt, set_fs w m)
      | Raise r => (Raise r, w)
      end.

Definition parent_exists (path : string) (m : gmap string FsEntry) : bool :=
  let d := Py.dirname path in
  if forallb (fun c => Ascii.eqb c Py.slash) (Py.chars d) then true
  else match m !! d with
       | Some Dir => true
       | _ => false
       end.

(** [with open(path, "wb") as f: f.write(content)] *)
Definition write_file (path : string) (content : list Byte.byte) : M unit :=
  fun w =>
    match fs w !! path with
    | Some Dir => (Raise (native Py.OSError ("Is a directory: " +:+ path)), w)
    | _ =>
        if String.eqb path "" then
          (Raise (native Py.FileNotFoundError ("No such file or directory: " +:+ path)), w)
        else if Py.endswith_slash path then
          (Raise (native Py.OSError ("Is a directory: " +:+ path)), w)
        else if parent_exists path (fs w)
        then (Ok tt, set_fs w (<[path := File content]> (fs w)))
        else (Raise (native Py.FileNotFoundError ("No such file or directory: " +:+ path)), w)
    end.

(** The bytes of a file opened for reading. *)
Definition read_file (path : string) : M (list Byte.byte) :=
  fun w =>
    match fs w !! path with
    | Some (File content) => (Ok content, w)
    | Some Dir => (Raise (native Py.OSError ("Is a directory: " +:+ path)), w)
    | None => (Raise (native Py.FileNotFoundError ("No such file or directory: " +:+ path)), w)
    end.

Definition exists_ (path : string) : M bool :=
  fun w => (Ok (bool_decide (is_Some (fs w !! path))), w).

Definition isfile (path : string) : M bool :=
  fun w => (Ok (match fs w !! path with Some (File _) => true | _ => false end), w).

Definition isdir (path : string) : M bool :=
  fun w => (Ok (match fs w !! path with Some Dir => true | _ => false end), w).

(** The name of [key] inside the directory [path], when it is directly
    inside. *)
Definition child_name (path key : string) : option string :=
  let pre := if Py.endswith_slash path then path else path +:+ "/" in
  if Py.startswith key pre then
    let name := Py.str (drop (String.length pre) (Py.chars key)) in
    if (String.eqb name "" || Py.str_contains "/" name)%bool then None else Some name
  else None.

(** [os.listdir(path)]; the order is the map's. *)
Definition listdir (path : string) : M (list string) :=
  fun w =>
    match fs w !! path with
    | Some Dir => (Ok (omap (fun kv => child_name path (fst kv)) (map_to_list (fs w))), w)
    | Some (File _) => (Raise (native Py.OSError ("Not a directory: " +:+ path)), w)
    | None => (Raise (native Py.FileNotFoundError ("No such file or directory: " +:+ path)), w)
    end.

(** ** [DriveFilesystemAdapter] ([drive.py]) *)

Module Drive.

Import Py Error.

Definition FOLDER_MIME : string := "application/vnd.google-apps.folder".

(** The adapter object: [self.creds]; [self.service] is the Drive part of
    the world. *)
Record DriveAdapter := mkAdapter {
  creds : option Credentials
}.

Section Methods.

(** [str(e)] of an adapter error, defined in [flysystem/error.py]. *)
Variable error_str : AdapterError -> string.

Definition str_of (r : Raised) : string :=
  match r with
  | Native e => exn_str e
  | Adapter a => error_str a
  end.

Definition reason_of (r : Raised) : string :=
  match r with
  | Native e => exn_reason e
  | Adapter a => error_str a
  end.

Definition is_a (r : Raised) (c : ExnClass) : bool :=
  match r with
  | Native e => isinstance e c
  | Adapter _ => false
  end.

(** *** [__init__]: the credential life cycle (lines 34-64) *)

(** [open(token_path, "wb")] followed by [pickle.dump]. *)
Definition dump_token (token_path : option string) (c : option Credentials) : M unit :=
  match token_path with
  | None => raise (native TypeError "expected str, bytes or os.PathLike object, not NoneType")
  | Some p => e <- ask ;; write_file p (pickle_dumps e c)
  end.

(** The [else] branch of lines 50-57: the interactive authorization. *)
Definition authorize (creds_path : string) : M (option Credentials) :=
  e <- ask ;;
  flow <- try_except
            (log_call (FromClientSecretsFile creds_path) ;;;
             lift (client_secrets e creds_path))
            (fun r =>
               if is_a r JSONDecodeError
               then raise (with_location UnableToReadCredentialFile creds_path
                             "The input credential file is not JSON formatted.")
               else raise r) ;;
  log_call (RunLocalServer flow) ;;;
  lift (local_server e flow).

Definition __init__ (creds_path : string) (token_path : option string) : M DriveAdapter :=
  e <- ask ;;
  (* if token_path and os.path.exists(token_path): *)
  present <- (match token_path with
              | Some p => if truthy token_path then exists_ p else ret false
              | None => ret false
              end) ;;
  loaded <- (match token_path with
             | Some p =>
                 if present then
                   bytes <- read_file p ;;
                   try_except (lift (unpickle e bytes))
                     (fun r =>
                        if is_a r UnpicklingError
                        then raise (with_location UnableToFindDriveToken p
                                      "Can't pickle the token.")
                        else raise r)
                 else ret None
             | None => ret None
             end) ;;
  (* if not self.creds or not self.creds.valid: *)
  current <- (if match loaded with Some c => negb (valid c) | None => true end
              then
                fresh <- (match loaded with
                          | Some c =>
                              if (expired c && truthy (refresh_token c))%bool
                              then log_call (CredsRefresh c) ;;;
                                   c' <- lift (oauth_refresh e c) ;;
                                   ret (Some c')
                              else authorize creds_path
                          | None => authorize creds_path
                          end) ;;
                dump_token token_path fresh ;;;
                ret fresh
              else ret loaded) ;;
  log_call (Build current) ;;;
  remote_call ;;;
  ret (mkAdapter current).

(** *** Requests to the Drive service *)

(** [self.service.files().create(body=..., media_body=..., fields="id").execute()];
    the answer is the dict [{"id": ...}], of which the adapter reads
    [.get("id")]. *)
Definition files_create (body : Metadata) (media : option (list Byte.byte)) : M (option string) :=
  remote_call ;;;
  fun w =>
    let new_id := drive_new_id (env w) (length (drive_created w)) in
    (Ok (Some new_id),
     set_created w (drive_created w ++ [mkCreated new_id body media])).

(** [self.service.files().list(q=..., fields=...).execute()] *)
Definition files_list (q : string) : M ListResponse :=
  remote_call ;;;
  e <- ask ;;
  ret (drive_list e q).

(** [response.get("files", [])] *)
Definition get_files (response : ListResponse) : list DriveFile :=
  default [] (r_files response).

(** *** [create_directory] (lines 66-85) *)

(** ["parent_id" in options]: membership in a dict, substring of a str,
    [TypeError] on [None]. *)
Definition contains (key : string) (options : Value) : M bool :=
  match options with
  | VDict d => ret (bool_decide (is_Some (d !! key)))
  | VStr s => ret (str_contains key s)
  | VStrList l => ret (bool_decide (key ∈ l))
  | VBytes _ => raise (native TypeError "a bytes-like object is required, not 'str'")
  | VNone => raise (native TypeError "argument of type 'NoneType' is not iterable")
  | VBool _ => raise (native TypeError "argument of type 'bool' is not iterable")
  | VInt _ => raise (native TypeError "argument of type 'int' is not iterable")
  end.

(** [options["parent_id"]] *)
Definition getitem (key : string) (options : Value) : M string :=
  match options with
  | VDict d =>
      match d !! key with
      | Some v => ret v
      | None => raise (native KeyError key)
      end
  | VStr _ => raise (native TypeError "string indices must be integers")
  | VStrList _ | VBytes _ => raise (native TypeError "indices must be integers or slices, not str")
  | VNone | VBool _ | VInt _ => raise (native TypeError "object is not subscriptable")
  end.

Definition create_directory (path : string) (options : Value) : M (option string) :=
  let file_metadata := mkMetadata path (Some FOLDER_MIME) None in
  has_parent <- contains "parent_id" options ;;
  file_metadata <-
    (if has_parent : bool
     then parent <- getitem "parent_id" options ;;
          ret (mkMetadata path (Some FOLDER_MIME) (Some [parent]))
     else ret file_metadata) ;;
  try_except (files_create file_metadata None)
    (fun r =>
       if is_a r TransportError
       then raise (with_location UnableToCreateDirectory path (str_of r))
       else if is_a r HttpError
       then raise (with_location UnableToCreateDirectory path (reason_of r))
       else raise r).

(** *** [upload_file] (lines 87-113) *)

Definition upload_file (file_path : string) (parent_id : option string) : M (option string) :=
  let file_name := basename file_path in
  let file_metadata :=
    mkMetadata file_name None
      (if truthy parent_id then option_map (fun p => [p]) parent_id else None) in
  try_except
    ((* MediaFileUpload(file_path, resumable=True) opens the file *)
     media <- read_file file_path ;;
     files_create file_metadata (Some media))
    (fun r =>
       if is_a r TransportError
       then raise (with_location UnableToUpload file_path (str_of r))
       else if is_a r HttpError
       then raise (with_location UnableToUpload file_path (reason_of r))
       else if is_a r FileNotFoundError
       then raise (with_location UnableToUpload file_path "File not found.")
       else if is_a r PermissionError
       then raise (with_location UnableToUpload file_path (str_of r))
       else raise (with_location UnableToUpload file_path (str_of r))).

(** *** [upload_folder] (lines 115-139)

    [depth] is the room left on the interpreter's call stack; a call with
    none left raises [RecursionError].  Line 126 hands [parent_id] itself
    (a [str] or [None]) to [create_directory] as its [options]. *)

Definition as_value (s : option string) : Value :=
  match s with
  | Some x => VStr x
  | None => VNone
  end.

Fixpoint upload_folder (depth : nat) (folder_path : string) (parent_id : option string) : M unit :=
  match depth with
  | O => raise (native RecursionError "maximum recursion depth exceeded")
  | S depth' =>
      folder_id <-
        try_except
          (let folder_name := basename folder_path in
           create_directory folder_name (as_value parent_id))
          (fun r =>
             if is_a r FileNotFoundError
             then raise (with_location UnableToUpload folder_path "Folder not found.")
             else if is_a r PermissionError
             then raise (with_location UnableToUpload folder_path (str_of r))
             else raise (with_location UnableToUpload folder_path (str_of r))) ;;
      items <- listdir folder_path ;;
      for_each items (fun item =>
        let item_path := join folder_path item in
        is_file <- isfile item_path ;;
        if is_file : bool
        then upload_file item_path folder_id ;;; ret tt
        else
          is_dir <- isdir item_path ;;
          if is_dir : bool
          then upload_folder depth' item_path folder_id
          else ret tt)
  end.

(** *** [get_resource_by_name] (lines 141-179) *)

(** The three [except] clauses of the Drive requests that fail with
    [UnableToDownload]. *)
Definition unable_to_download {A} (location : string) (r : Raised) : M A :=
  if is_a r TransportError
  then raise (with_location UnableToDownload location (str_of r))
  else if is_a r HttpError
  then raise (with_location UnableToDownload location (reason_of r))
  else raise (with_location UnableToDownload location (str_of r)).

Definition name_query (resource_name : string) : string :=
  "name='" +:+ resource_name +:+ "' and trashed=false".

(** [d[key]] on a dict of strings: [KeyError] when the key is missing. *)
Definition index (key : string) (value : option string) : M string :=
  match value with
  | Some v => ret v
  | None => raise (native KeyError ("'" +:+ key +:+ "'"))
  end.

(** The list comprehension of line 167: one entry per owner. *)
Fixpoint owner_entries (owners : list Owner) : M (list string) :=
  match owners with
  | [] => ret []
  | owner :: rest =>
      display_name <- index "displayName" (displayName owner) ;;
      email_address <- index "emailAddress" (emailAddress owner) ;;
      entries <- owner_entries rest ;;
      ret ((display_name +:+ " (" +:+ email_address +:+ ")") :: entries)
  end.

(** The line printed for the file at position [idx] (lines 165-172). *)
Definition describe (idx : nat) (file : DriveFile) : M string :=
  let size := default "Unknown" (f_size file) in
  entries <- owner_entries (default [] (f_owners file)) ;;
  let owners := str_join ", " entries in
  name <- index "name" (f_name file) ;;
  mime_type <- index "mimeType" (f_mimeType file) ;;
  created_time <- index "createdTime" (f_createdTime file) ;;
  ret (pretty (idx + 1)%nat +:+ ". Name: " +:+ name +:+
       ", Type: " +:+ mime_type +:+ ", " +:+
       "Created: " +:+ created_time +:+ ", Size: " +:+ size +:+
       ", Owners: " +:+ owners).

(** [enumerate(files)], counting from [start]. *)
Fixpoint enumerate {A} (start : nat) (l : list A) : list (nat * A) :=
  match l with
  | [] => []
  | x :: rest => (start, x) :: enumerate (S start) rest
  end.

Definition select_prompt (n : nat) : string :=
  "Select a file or folder (1-" +:+ pretty n +:+ "): ".

Definition get_resource_by_name (resource_name : string) : M DriveFile :=
  files <- try_except
             (let query := name_query resource_name in
              response <- files_list query ;;
              ret (get_files response))
             (unable_to_download resource_name) ;;
  match files with
  | [] => raise (with_location UnableToDownload resource_name "Resource not found")
  | [file] => ret file
  | _ =>
      print "Multiple files/folders found:" ;;;
      for_each (enumerate 0 files)
        (fun '(idx, file) => line <- describe idx file ;; print line) ;;;
      line <- input (select_prompt (length files)) ;;
      match int line with
      | None => raise (native ValueError
                        ("invalid literal for int() with base 10: '" +:+ line +:+ "'"))
      | Some choice =>
          if ((1 <=? choice) && (choice <=? Z.of_nat (length files)))%Z
          then match files !! Z.to_nat (choice - 1) with
               | Some file => ret file
               | None => raise (native IndexError "list index out of range")
               end
          else raise (with_location UnableToDownload resource_name "Invalid choice")
      end
  end.

(** *** [download_file] (lines 181-209) *)

(** The [while done is False] loop over [downloader.next_chunk()]; [fh]
    is what the buffer holds so far.  The last chunk reports [done]; a
    file without chunks reports it on the first request. *)
Fixpoint next_chunks (chunks : list (list Byte.byte)) (fh : list Byte.byte) : M (list Byte.byte) :=
  match chunks with
  | [] => remote_call ;;; ret fh
  | [chunk] => remote_call ;;; ret (fh ++ chunk)
  | chunk :: rest => remote_call ;;; next_chunks rest (fh ++ chunk)
  end.

Definition download_file (file_id file_name download_path : string) : M unit :=
  try_except
    (e <- ask ;;
     fh <- next_chunks (drive_media e file_id) [] ;;
     makedirs download_path ;;;
     write_file (join download_path file_name) fh)
    (unable_to_download file_name) ;;;
  print "File Downloaded".

(** *** [download_folder] (lines 211-243) *)

Definition parents_query (folder_id : string) : string :=
  "'" +:+ folder_id +:+ "' in parents".

Fixpoint download_folder (depth : nat) (folder_id folder_name download_path : string) : M unit :=
  match depth with
  | O => raise (native RecursionError "maximum recursion depth exceeded")
  | S depth' =>
      let download_path := join download_path folder_name in
      makedirs download_path ;;;
      results <- try_except (files_list (parents_query folder_id))
                   (unable_to_download folder_name) ;;
      let items := get_files results in
      for_each items (fun item =>
        mime_type <- index "mimeType" (f_mimeType item) ;;
        if String.eqb mime_type FOLDER_MIME
        then
          name <- index "name" (f_name item) ;;
          let new_folder_path := join download_path name in
          makedirs new_folder_path ;;;
          item_id <- index "id" (f_id item) ;;
          item_name <- index "name" (f_name item) ;;
          download_folder depth' item_id item_name new_folder_path
        else
          item_id <- index "id" (f_id item) ;;
          item_name <- index "name" (f_name item) ;;
          download_file item_id item_name download_path) ;;;
      print "Folder downloaded"
  end.

(** *** The operations the adapter does not implement (lines 245-423) *)

Definition file_exists (path : string) : M bool :=
  raise (native NotImplementedError "").

Definition directory_exists (path : string) : M bool :=
  raise (native NotImplementedError "").

Definition write (path contents : string) (options : Value) : M unit :=
  raise (native NotImplementedError "").

Definition write_stream (path : string) (resource : list Byte.byte) (options : Value) : M unit :=
  raise (native NotImplementedError "").

Definition read (path : string) : M string :=
  raise (native NotImplementedError "").

Definition read_stream (path : string) : M (list Byte.byte) :=
  raise (native NotImplementedError "").

Definition delete (path : string) : M unit :=
  raise (native NotImplementedError "").

Definition delete_directory (path : string) : M unit :=
  raise (native NotImplementedError "").

Definition set_visibility (path visibility : string) : M unit :=
  raise (native NotImplementedError "").

Definition visibility (path : string) : M string :=
  raise (native NotImplementedError "").

Definition file_size (path : string) : M Z :=
  raise (native NotImplementedError "").

Definition mime_type (path : string) : M string :=
  raise (native NotImplementedError "").

Definition last_modified (path : string) : M Z :=
  raise (native NotImplementedError "").

Definition list_contents (path : string) : M (list string) :=
  raise (native NotImplementedError "").

Definition copy (source destination : string) (options : Value) : M unit :=
  raise (native NotImplementedError "").

Definition move (source destination : string) (options : Value) : M unit :=
  raise (native NotImplementedError "").

Definition temporary_url (path : string) (options : Value) : M string :=
  raise (native NotImplementedError "").

End Methods.

End Drive.

(** ** [HuggingFaceFilesystemAdapter] ([hgface.py]) *)

Module HuggingFace.

Import Py Error.

Section Methods.

(** [str(e)] of an adapter error, defined in [flysystem/error.py]. *)
Variable error_str : AdapterError -> string.

(** A library routine: the call is recorded, then it raises what the
    fault script says, if anything. *)
Definition library (c : LibCall) : M unit :=
  log_call c ;;; remote_call.

(** The five [except] clauses shared by [download] and [upload]; [k] is
    the error class raised. *)
Definition translate {A} (k : Kind) (repo_id : string) (r : Raised) : M A :=
  if Drive.is_a r RepositoryNotFoundError
  then raise (with_location k repo_id "Repository not found.")
  else if Drive.is_a r RevisionNotFoundError
  then raise (with_location k repo_id "Revision not found.")
  else if Drive.is_a r HfHubHTTPError
  then raise (with_location k repo_id (Drive.str_of error_str r))
  else if Drive.is_a r ValueError
  then raise (with_location k repo_id "Invalid arguments.")
  else raise (with_location k repo_id (Drive.str_of error_str r)).

(** [self.api.list_repo_files(repo_id=repo_id)] *)
Definition list_repo_files (repo_id : string) : M (list string) :=
  library (ListRepoFiles repo_id) ;;;
  e <- ask ;;
  ret (hub_files e repo_id).

(** The body of the [for] loop of lines 228-235 for one [file_path]. *)
Definition download_one (repo_id local_dir resource file_path : string) : M unit :=
  if startswith file_path resource
  then
    let tmp_path := join local_dir "tmp" in
    library (HfHubDownload repo_id file_path tmp_path) ;;;
    let src_path := join tmp_path resource in
    let dst_path := join local_dir (after_last_slash resource) in
    library (ShutilMove src_path dst_path) ;;;
    library (ShutilRmtree tmp_path)
  else ret tt.

(** [download] (lines 213-246) *)
Definition download (repo_id local_dir : string) (resource : option string) : M unit :=
  try_except
    (match resource with
     | Some r =>
         if truthy resource
         then
           file_path_list <- list_repo_files repo_id ;;
           for_each file_path_list (download_one repo_id local_dir r)
         else library (SnapshotDownload repo_id local_dir)
     | None => library (SnapshotDownload repo_id local_dir)
     end)
    (translate UnableToDownload repo_id) ;;;
  print ("Resource downloaded to " +:+ local_dir).

(** [upload] (lines 248-297) *)
Definition upload (local_resource_path repo_id commit_message : string)
    (path_in_repo revision : option string) : M unit :=
  print ("Uploading resource to " +:+ repo_id +:+ "...") ;;;
  try_except
    (let path_in_repo :=
       match path_in_repo with
       | Some p => if truthy path_in_repo then p else after_last_slash local_resource_path
       | None => after_last_slash local_resource_path
       end in
     is_dir <- isdir local_resource_path ;;
     if is_dir : bool
     then library (UploadFolder local_resource_path path_in_repo repo_id commit_message revision)
     else library (UploadFile local_resource_path path_in_repo repo_id commit_message revision))
    (translate UnableToUpload repo_id) ;;;
  print ("Resource uploaded to " +:+ repo_id).

End Methods.

(** *** The operations the adapter does not implement (lines 22-211) *)

Definition file_exists (path : string) : M bool :=
  raise (native NotImplementedError "").

Definition directory_exists (path : string) : M bool :=
  raise (native NotImplementedError "").

Definition write (path contents : string) (options : Value) : M unit :=
  raise (native NotImplementedError "").

Definition write_stream (path : string) (resource : list Byte.byte) (options : Value) : M unit :=
  raise (native NotImplementedError "").

Definition read (path : string) : M string :=
  raise (native NotImplementedError "").

Definition read_stream (path : string) : M (list Byte.byte) :=
  raise (native NotImplementedError "").

Definition delete (path : string) : M unit :=
  raise (native NotImplementedError "").

Definition delete_directory (path : string) : M unit :=
  raise (native NotImplementedError "").

Definition create_directory (path : string) (options : Value) : M unit :=
  raise (native NotImplementedError "").

Definition set_visibility (path visibility : string) : M unit :=
  raise (native NotImplementedError "").

Definition visibility (path : string) : M string :=
  raise (native NotImplementedError "").

Definition file_size (path : string) : M Z :=
  raise (native NotImplementedError "").

Definition mime_type (path : string) : M string :=
  raise (native NotImplementedError "").

Definition last_modified (path : string) : M Z :=
  raise (native NotImplementedError "").

Definition list_contents (path : string) : M (list string) :=
  raise (native NotImplementedError "").

Definition copy (source destination : string) (options : Value) : M unit :=
  raise (native NotImplementedError "").

Definition move (source destination : string) (options : Value) : M unit :=
  raise (native NotImplementedError "").

Definition temporary_url (path : string) (options : Value) : M string :=
  raise (native NotImplementedError "").

End HuggingFace.

(** ** The adapter contract: one entry point per operation *)

Module Contract.

Import Py.

Inductive Backend :=
  | GoogleDrive
  | HuggingFaceHub.

(** An invocation of one of the eighteen operations of
    [FilesystemAdapter], with its arguments. *)
Inductive Call :=
  | FileExists (path : string)
  | DirectoryExists (path : string)
  | Write (path contents : string) (options : Value)
  | WriteStream (path : string) (resource : list Byte.byte) (options : Value)
  | Read (path : string)
  | ReadStream (path : string)
  | Delete (path : string)
  | DeleteDirectory (path : string)
  | CreateDirectory (path : string) (options : Value)
  | SetVisibility (path visibility : string)
  | Visibility (path : string)
  | FileSize (path : string)
  | MimeType (path : string)
  | LastModified (path : string)
  | ListContents (path : string)
  | Copy (source destination : string) (options : Value)
  | Move (source destination : string) (options : Value)
  | TemporaryUrl (path : string) (options : Value).

Definition fmap {A B} (f : A -> B) (m : M A) : M B :=
  bind m (fun a => ret (f a)).

Definition none (_ : unit) : Value := VNone.

Definition opt_str (o : option string) : Value :=
  match o with
  | Some s => VStr s
  | None => VNone
  end.

Definition invoke_drive (error_str : Error.AdapterError -> string) (c : Call) : M Value :=
  match c with
  | FileExists p => fmap VBool (Drive.file_exists p)
  | DirectoryExists p => fmap VBool (Drive.directory_exists p)
  | Write p s o => fmap none (Drive.write p s o)
  | WriteStream p r o => fmap none (Drive.write_stream p r o)
  | Read p => fmap VStr (Drive.read p)
  | ReadStream p => fmap VBytes (Drive.read_stream p)
  | Delete p => fmap none (Drive.delete p)
  | DeleteDirectory p => fmap none (Drive.delete_directory p)
  | CreateDirectory p o => fmap opt_str (Drive.create_directory error_str p o)
  | SetVisibility p v => fmap none (Drive.set_visibility p v)
  | Visibility p => fmap VStr (Drive.visibility p)
  | FileSize p => fmap VInt (Drive.file_size p)
  | MimeType p => fmap VStr (Drive.mime_type p)
  | LastModified p => fmap VInt (Drive.last_modified p)
  | ListContents p => fmap VStrList (Drive.list_contents p)
  | Copy s d o => fmap none (Drive.copy s d o)
  | Move s d o => fmap none (Drive.move s d o)
  | TemporaryUrl p o => fmap VStr (Drive.temporary_url p o)
  end.

Definition invoke_hub (c : Call) : M Value :=
  match c with
  | FileExists p => fmap VBool (HuggingFace.file_exists p)
  | DirectoryExists p => fmap VBool (HuggingFace.directory_exists p)
  | Write p s o => fmap none (HuggingFace.write p s o)
  | WriteStream p r o => fmap none (HuggingFace.write_stream p r o)
  | Read p => fmap VStr (HuggingFace.read p)
  | ReadStream p => fmap VBytes (HuggingFace.read_stream p)
  | Delete p => fmap none (HuggingFace.delete p)
  | DeleteDirectory p => fmap none (HuggingFace.delete_directory p)
  | CreateDirectory p o => fmap none (HuggingFace.create_directory p o)
  | SetVisibility p v => fmap none (HuggingFace.set_visibility p v)
  | Visibility p => fmap VStr (HuggingFace.visibility p)
  | FileSize p => fmap VInt (HuggingFace.file_size p)
  | MimeType p => fmap VStr (HuggingFace.mime_type p)
  | LastModified p => fmap VInt (HuggingFace.last_modified p)
  | ListContents p => fmap VStrList (HuggingFace.list_contents p)
  | Copy s d o => fmap none (HuggingFace.copy s d o)
  | Move s d o => fmap none (HuggingFace.move s d o)
  | TemporaryUrl p o => fmap VStr (HuggingFace.temporary_url p o)
  end.

Definition invoke (error_str : Error.AdapterError -> string) (b : Backend) (c : Call) : M Value :=
  match b with
  | GoogleDrive => invoke_drive error_str c
  | HuggingFaceHub => invoke_hub c
  end.

(** The operations a backend has no implementation for: every one on
    the hub, every one but [create_directory] on Drive. *)
Definition unsupported (b : Backend) (c : Call) : bool :=
  match b, c with
  | GoogleDrive, CreateDirectory _ _ => false
  | _, _ => true
  end.

End Contract.

(** ** Vocabulary of the statements *)

(** The next remote call of [w] does not raise. *)
Definition next_call_ok (w : World) : bool :=
  match faults w with
  | Some _ :: _ => false
  | _ => true
  end.

(** The world once that call has been served. *)
Definition after_call (w : World) : World :=
  set_faults w (tail (faults w)).

(** The items the Drive service answers to the resolver's query. *)
Definition matches (w : World) (resource_name : string) : list DriveFile :=
  Drive.get_files (drive_list (env w) (Drive.name_query resource_name)).

(** The repository files handed to [hf_hub_download] among some calls. *)
Definition fetched (cs : list LibCall) : list string :=
  omap (fun c => match c with
                 | HfHubDownload _ filename _ => Some filename
                 | _ => None
                 end) cs.

(** A file of the repository lies at or under [resource] when it is that
    path or is inside the directory of that name. *)
Definition at_or_under (resource file_path : string) : bool :=
  (String.eqb file_path resource || Py.startswith file_path (resource +:+ "/"))%bool.

(** *** Sample worlds *)

Module Sample.

Import Py.

Definition bytes (s : string) : list Byte.byte := list_byte_of_string s.

(** One way [error.py] may print an error: its message. *)
Definition error_str (e : Error.AdapterError) : string := Error.message e.

Definition stale : Credentials := mkCredentials "old" false true (Some "refresh-1").
Definition granted : Credentials := mkCredentials "new" true false (Some "refresh-2").

(** A Drive item with the keys [id], [name], [mimeType], [createdTime]. *)
Definition item (id name mime created : string)
    (size : option string) (owners : option (list Owner)) : DriveFile :=
  mkFile (Some id) (Some name) (Some mime) (Some created) size owners.

Definition owner (name email : string) : Owner := mkOwner (Some name) (Some email).

Definition sub : DriveFile :=
  item "S1" "sub" Drive.FOLDER_MIME "2024-01-01T00:00:00Z" None None.
Definition leaf : DriveFile :=
  item "F1" "f.txt" "text/plain" "2024-01-02T00:00:00Z" (Some "5")
       (Some [owner "Ann" "ann@example.org"]).
Definition report1 : DriveFile :=
  item "A1" "report" Drive.FOLDER_MIME "2024-02-01T00:00:00Z" None None.
Definition report2 : DriveFile :=
  item "A2" "report" Drive.FOLDER_MIME "2024-03-01T00:00:00Z" None
       (Some [owner "Bob" "bob@example.org"; owner "Cy" "cy@example.org"]).

(** A Drive with the folder [root] (id [R0]) holding the folder [sub]
    holding the file [f.txt]; two folders named [report]; one item named
    [f.txt].  A token cache unpickles to [stale] when it holds ["creds"],
    raises [UnpicklingError] when it holds ["junk"], and [EOFError]
    otherwise (an empty or truncated file).  Refreshing fails. *)
Definition env0 : Env :=
  mkEnv
    (fun b =>
       if String.eqb (string_of_list_byte b) "creds" then Returns (Some stale)
       else if String.eqb (string_of_list_byte b) "junk"
       then Raises (mkExn UnpicklingError "invalid load key, 'j'." "")
       else Raises (mkExn EOFError "Ran out of input" ""))
    (fun _ => bytes "creds")
    (fun _ => Raises (mkExn RefreshError "invalid_grant: Token has been expired or revoked." ""))
    (fun creds_path => Returns creds_path)
    (fun _ => Returns (Some granted))
    (fun q =>
       if String.eqb q "'R0' in parents" then mkResponse (Some [sub])
       else if String.eqb q "'S1' in parents" then mkResponse (Some [leaf])
       else if String.eqb q "name='report' and trashed=false"
       then mkResponse (Some [report1; report2])
       else if String.eqb q "name='f.txt' and trashed=false"
       then mkResponse (Some [leaf])
       else mkResponse (Some []))
    (fun file_id => if String.eqb file_id "F1" then [bytes "he"; bytes "llo"] else [])
    (fun n => "id" +:+ pretty n)
    (fun _ => ["data/a.txt"; "data2.txt"; "other.bin"]).

Definition world0 : World := mkWorld env0 [] [] [] ∅ [] [].

(** The local directory [photos] with a file and a subdirectory. *)
Definition photos : gmap string FsEntry :=
  list_to_map [("photos", Dir); ("photos/b.txt", File (bytes "y"));
               ("photos/2020", Dir); ("photos/2020/a.jpg", File (bytes "x"))].

Definition token_path : string := "/tmp/drive_token.pickle".

End Sample.

(** ** Vocabulary of the further statements

    Local paths are compared as strings throughout: a path names the
    entry stored under exactly that string. *)

(** [open(path, "wb")] succeeds on the file system [m]. *)
Definition writable (path : string) (m : gmap string FsEntry) : bool :=
  negb (match m !! path with Some Dir => true | _ => false end) &&
  negb (String.eqb path "") &&
  negb (Py.endswith_slash path) &&
  parent_exists path m.

(** [os.makedirs(path, exist_ok=True)] succeeds on [m0] and leaves [m]. *)
Definition makedirs_to (path : string) (m0 m : gmap string FsEntry) : Prop :=
  path <> "" /\ mkdirs (dir_prefixes path) m0 = Ok m.

(** An owner entry, and an item, with every key that the listing of
    lines 164-172 indexes. *)
Definition owner_listable (o : Owner) : bool :=
  match displayName o, emailAddress o with
  | Some _, Some _ => true
  | _, _ => false
  end.

Definition listable (file : DriveFile) : bool :=
  match f_name file, f_mimeType file, f_createdTime file with
  | Some _, Some _, Some _ => forallb owner_listable (default [] (f_owners file))
  | _, _, _ => false
  end.

(** The line that presents [file] under the number [number]; a missing
    key shows as the empty string. *)
Definition owner_shown (o : Owner) : string :=
  default "" (displayName o) +:+ " (" +:+ default "" (emailAddress o) +:+ ")".

Definition listing_line (number : nat) (file : DriveFile) : string :=
  pretty number +:+ ". Name: " +:+ default "" (f_name file) +:+
  ", Type: " +:+ default "" (f_mimeType file) +:+
  ", Created: " +:+ default "" (f_createdTime file) +:+
  ", Size: " +:+ default "Unknown" (f_size file) +:+
  ", Owners: " +:+ Py.str_join ", " (map owner_shown (default [] (f_owners file))).

(** The console after the listing of [files] and the prompt. *)
Definition listing (files : list DriveFile) : list string :=
  "Multiple files/folders found:" ::
  imap (fun i file => listing_line (i + 1) file) files ++
  [Drive.select_prompt (length files)].

(** The message that the three [except] clauses around a Drive request
    give to [UnableToDownload]. *)
Definition download_failure_text (e : Py.Exn) : string :=
  if Py.isinstance e Py.TransportError then Py.exn_str e
  else if Py.isinstance e Py.HttpError then Py.exn_reason e
  else Py.exn_str e.

(** The message that the five [except] clauses of the hub adapter give
    to the adapter error. *)
Definition hub_failure_text (e : Py.Exn) : string :=
  if Py.isinstance e Py.RepositoryNotFoundError then "Repository not found."
  else if Py.isinstance e Py.RevisionNotFoundError then "Revision not found."
  else if Py.isinstance e Py.HfHubHTTPError then Py.exn_str e
  else if Py.isinstance e Py.ValueError then "Invalid arguments."
  else Py.exn_str e.

(** The calls a selective download of [resource] may make. *)
Definition selective_call (repo_id local_dir resource : string) (c : LibCall) : Prop :=
  match c with
  | ListRepoFiles r => r = repo_id
  | HfHubDownload r filename d =>
      r = repo_id /\ Py.startswith filename resource = true /\
      d = Py.join local_dir "tmp"
  | ShutilMove src dst =>
      src = Py.join (Py.join local_dir "tmp") resource /\
      dst = Py.join local_dir (Py.after_last_slash resource)
  | ShutilRmtree p => p = Py.join local_dir "tmp"
  | _ => False
  end.

(** Running [m] only adds create requests, each satisfying [P]. *)
Definition creates (P : Created -> Prop) {A} (m : M A) : Prop :=
  forall w, exists new,
    drive_created (snd (m w)) = drive_created w ++ new /\ Forall P new.

(** A create request for a folder (one without media) that names no
    parent. *)
Definition folder_without_parents (c : Created) : Prop :=
  c_media c = None -> md_parents (c_body c) = None.

(** *** Further sample worlds *)

Module Scenario.

Import Py.

(** As [Sample.env0], except that a cache holding ["valid"] unpickles to
    a valid credential, credentials are pickled to ["valid"] or
    ["creds"] according to their validity, refreshing succeeds, and the
    descriptor [broken.json] is not JSON. *)
Definition env1 : Env :=
  mkEnv
    (fun b =>
       if String.eqb (string_of_list_byte b) "valid" then Returns (Some Sample.granted)
       else unpickle Sample.env0 b)
    (fun c =>
       match c with
       | Some c => if valid c then Sample.bytes "valid" else Sample.bytes "creds"
       | None => Sample.bytes "none"
       end)
    (fun _ => Returns Sample.granted)
    (fun creds_path =>
       if String.eqb creds_path "broken.json"
       then Raises (mkExn JSONDecodeError "Expecting value: line 1 column 1 (char 0)" "")
       else Returns ("flow:" +:+ creds_path))
    (local_server Sample.env0)
    (drive_list Sample.env0)
    (drive_media Sample.env0)
    (drive_new_id Sample.env0)
    (hub_files Sample.env0).

(** The folder [docs] (id [D0]) holds one folder, [drafts] (id [D1]),
    which is empty. *)
Definition drafts : DriveFile :=
  Sample.item "D1" "drafts" Drive.FOLDER_MIME "2024-04-01T00:00:00Z" None None.

(** Two items named [minutes]; an owner of the second has not made an
    email address visible, so the entry lacks the key. *)
Definition minutes1 : DriveFile :=
  Sample.item "M1" "minutes" "text/plain" "2024-05-01T00:00:00Z" (Some "12")
    (Some [Sample.owner "Ann" "ann@example.org"]).
Definition minutes2 : DriveFile :=
  Sample.item "M2" "minutes" "text/plain" "2024-05-02T00:00:00Z" (Some "7")
    (Some [mkOwner (Some "Dee") None]).

Definition env2 : Env :=
  mkEnv (unpickle env1) (pickle_dumps env1) (oauth_refresh env1) (client_secrets env1)
    (local_server env1)
    (fun q =>
       if String.eqb q "'D0' in parents" then mkResponse (Some [drafts])
       else if String.eqb q "'D1' in parents" then mkResponse None
       else if String.eqb q "name='minutes' and trashed=false"
       then mkResponse (Some [minutes1; minutes2])
       else drive_list env1 q)
    (drive_media env1) (drive_new_id env1) (hub_files env1).

Definition docs_world : World := mkWorld env2 [] [] [] ∅ [] [].

(** A machine with the directory [/tmp] and nothing else. *)
Definition fresh : World :=
  mkWorld env1 [] [] [] {[ "/tmp" := Dir ]} [] [].

(** The same machine with a token cache of the given content. *)
Definition cached (content : string) : World :=
  set_fs fresh (<[Sample.token_path := File (Sample.bytes content)]> (fs fresh)).

(** A machine whose next request fails with [e]. *)
Definition failing (e : Exn) (w : World) : World := set_faults w [Some e].

Definition not_found : Exn := mkExn HttpError "<HttpError 404>" "File not found: R0.".
Definition offline : Exn := mkExn TransportError "Connection refused" "".
Definition no_repo : Exn :=
  mkExn RepositoryNotFoundError "404 Client Error. Repository Not Found" "".

End Scenario.

(** * Properties *)

Local Open Scope m_scope.

(** ** The monad *)

Lemma bind_ok {A B} (m : M A) (k : A -> M B) w a w' :
  m w = (Ok a, w') -> bind m k w = k a w'.
Proof. intros H. unfold bind. now rewrite H. Qed.

Lemma bind_raise {A B} (m : M A) (k : A -> M B) w r w' :
  m w = (Raise r, w') -> bind m k w = (Raise r, w').
Proof. intros H. unfold bind. now rewrite H. Qed.

Lemma try_except_ok {A} (m : M A) h w a w' :
  m w = (Ok a, w') -> try_except m h w = (Ok a, w').
Proof. intros H. unfold try_except. now rewrite H. Qed.

Lemma try_except_raise {A} (m : M A) h w r w' :
  m w = (Raise r, w') -> try_except m h w = h r w'.
Proof. intros H. unfold try_except. now rewrite H. Qed.

Lemma remote_call_ok w :
  next_call_ok w = true -> remote_call w = (Ok tt, after_call w).
Proof.
  unfold next_call_ok, remote_call, after_call.
  destruct (faults w) as [|[e|] rest]; [reflexivity | discriminate | reflexivity].
Qed.

Lemma files_list_ok q w :
  next_call_ok w = true ->
  Drive.files_list q w = (Ok (drive_list (env w) q), after_call w).
Proof.
  intros H. unfold Drive.files_list.
  rewrite (bind_ok _ _ _ _ _ (remote_call_ok w H)). reflexivity.
Qed.

(** ** The adapter contract (C3) *)

(** C3, as the code has it: on both adapters every operation without an
    implementation raises the language's own [NotImplementedError], with
    an empty message, whatever its arguments, and leaves the world as it
    was.  No adapter error is built; the taxonomy's
    [UnsupportedOperation] is never raised. *)
Theorem unsupported_raises_not_implemented
    (error_str : Error.AdapterError -> string)
    (b : Contract.Backend) (c : Contract.Call) (w : World) :
  Contract.unsupported b c = true ->
  Contract.invoke error_str b c w = (Raise (native Py.NotImplementedError ""), w).
Proof.
  destruct b, c; simpl; intros H; try discriminate H; reflexivity.
Qed.

Lemma unsupported_raises_not_implemented_witness :
  Contract.unsupported Contract.HuggingFaceHub (Contract.Copy "a.txt" "b.txt" Py.VNone) = true /\
  Contract.invoke Sample.error_str Contract.HuggingFaceHub
    (Contract.Copy "a.txt" "b.txt" Py.VNone) Sample.world0
  = (Raise (native Py.NotImplementedError ""), Sample.world0).
Proof.
  split; [reflexivity|].
  apply (unsupported_raises_not_implemented Sample.error_str Contract.HuggingFaceHub
           (Contract.Copy "a.txt" "b.txt" Py.VNone) Sample.world0).
  reflexivity.
Defined.

(** C3 as stated fails: [file_exists] is not implemented by the Drive
    adapter, and invoking it does not fail with an [UnsupportedOperation]
    adapter error. *)
Lemma file_exists_not_unsupported_operation :
  Contract.unsupported Contract.GoogleDrive (Contract.FileExists "a.txt") = true /\
  ~ exists location message,
      fst (Contract.invoke Sample.error_str Contract.GoogleDrive
             (Contract.FileExists "a.txt") Sample.world0)
      = Raise (with_location Error.UnsupportedOperation location message).
Proof.
  split; [reflexivity|].
  intros (location & message & H). simpl in H. discriminate H.
Qed.

(** ** The resolver (C6, C7, C8, C9) *)

Section Resolver.

Variable error_str : Error.AdapterError -> string.

Lemma resolver_query_ok resource_name w :
  next_call_ok w = true ->
  try_except
    (response <- Drive.files_list (Drive.name_query resource_name) ;;
     ret (Drive.get_files response))
    (Drive.unable_to_download error_str resource_name) w
  = (Ok (matches w resource_name), after_call w).
Proof.
  intros H. apply try_except_ok.
  rewrite (bind_ok _ _ _ _ _ (files_list_ok _ w H)). reflexivity.
Qed.

Lemma world_stdout_nil w : set_stdout w (stdout w ++ []) = w.
Proof. destruct w; unfold set_stdout; simpl. now rewrite app_nil_r. Qed.

Lemma owner_entries_listable owners w :
  forallb owner_listable owners = true ->
  Drive.owner_entries owners w = (Ok (map owner_shown owners), w).
Proof.
  induction owners as [|o owners IH]; intros H; [reflexivity|].
  simpl in H. apply andb_true_iff in H as [Ho Hrest].
  unfold owner_listable in Ho. simpl. unfold bind at 1.
  destruct o as [[d|] [e|]]; try discriminate Ho. simpl.
  unfold bind at 1. simpl. unfold bind at 1. rewrite (IH Hrest). reflexivity.
Qed.

(** An owner entry without one of the two keys stops the comprehension
    with [KeyError]. *)
Lemma owner_entries_unlistable owners w :
  forallb owner_listable owners = false ->
  exists e, Drive.owner_entries owners w = (Raise (Native e), w) /\
            Py.exn_class e = Py.KeyError.
Proof.
  induction owners as [|o owners IH]; intros H; [discriminate H|].
  simpl in H. simpl. unfold bind at 1.
  destruct o as [[d|] [e|]]; simpl in *;
    try (eexists; split; reflexivity).
  unfold bind at 1. simpl. unfold bind at 1.
  destruct (IH H) as (x & -> & Hx). exists x. split; [reflexivity | exact Hx].
Qed.

(** On an item with the keys, [describe] returns its line. *)
Lemma describe_listable idx file w :
  listable file = true ->
  Drive.describe idx file w = (Ok (listing_line (idx + 1) file), w).
Proof.
  unfold listable, Drive.describe, listing_line. intros H.
  destruct (f_name file) as [name|]; [|discriminate H].
  destruct (f_mimeType file) as [mime|]; [|discriminate H].
  destruct (f_createdTime file) as [created|]; [|discriminate H].
  unfold bind at 1. rewrite (owner_entries_listable _ w H). reflexivity.
Qed.

(** On any other item it raises [KeyError]. *)
Lemma describe_unlistable idx file w :
  listable file = false ->
  exists e, Drive.describe idx file w = (Raise (Native e), w) /\
            Py.exn_class e = Py.KeyError.
Proof.
  unfold listable, Drive.describe. intros H. unfold bind at 1.
  destruct (forallb owner_listable (default [] (f_owners file))) eqn:Ho.
  - rewrite (owner_entries_listable _ w Ho).
    destruct (f_name file) as [name|]; [|eexists; split; reflexivity].
    destruct (f_mimeType file) as [mime|]; [|eexists; split; reflexivity].
    destruct (f_createdTime file) as [created|]; [|eexists; split; reflexivity].
    discriminate H.
  - destruct (owner_entries_unlistable _ w Ho) as (e & -> & He).
    exists e. split; [reflexivity | exact He].
Qed.

(** The loop of lines 164-172 prints one line per match, in list order. *)
Lemma print_listing files : forall start w,
  forallb listable files = true ->
  for_each (Drive.enumerate start files)
    (fun '(idx, file) => line <- Drive.describe idx file ;; print line) w
  = (Ok tt,
     set_stdout w (stdout w ++ imap (fun i file => listing_line (start + i + 1) file) files)).
Proof.
  induction files as [|file files IH]; intros start w H.
  - simpl. unfold ret. now rewrite world_stdout_nil.
  - simpl in H. apply andb_true_iff in H as [Hfile Hfiles].
    simpl. unfold bind at 1. unfold bind at 1.
    rewrite (describe_listable start file w Hfile). unfold print at 1.
    rewrite (IH (S start) _ Hfiles). simpl. f_equal. f_equal.
    rewrite <- app_assoc. simpl. rewrite Nat.add_0_r. do 2 f_equal.
    apply imap_ext. intros i x _. simpl. f_equal. lia.
Qed.

(** When some match lacks a key, the loop stops there with [KeyError];
    nothing is read from the console. *)
Lemma print_listing_key_error files : forall start w,
  forallb listable files = false ->
  exists e w',
    for_each (Drive.enumerate start files)
      (fun '(idx, file) => line <- Drive.describe idx file ;; print line) w
    = (Raise (Native e), w') /\
    Py.exn_class e = Py.KeyError /\ stdin w' = stdin w.
Proof.
  induction files as [|file files IH]; intros start w H; [discriminate H|].
  simpl in H. simpl. unfold bind at 1. unfold bind at 1.
  destruct (listable file) eqn:Hfile.
  - rewrite (describe_listable start file w Hfile). unfold print at 1.
    destruct (IH (S start) (set_stdout w (stdout w ++ [listing_line (start + 1) file])) H)
      as (e & w' & -> & He & Hin).
    exists e, w'. split; [reflexivity|]. split; [exact He | exact Hin].
  - destruct (describe_unlistable start file w Hfile) as (e & -> & He).
    exists e, w. split; [reflexivity|]. split; [exact He | reflexivity].
Qed.

(** What the resolver does once the query has answered two items or
    more, each with the keys of the listing: it lists them and reads a
    line. *)
Lemma resolver_prompts resource_name w line rest :
  next_call_ok w = true ->
  (1 < length (matches w resource_name))%nat ->
  forallb listable (matches w resource_name) = true ->
  stdin w = line :: rest ->
  Drive.get_resource_by_name error_str resource_name w =
    let files := matches w resource_name in
    let w' := set_stdin (set_stdout (after_call w) (stdout w ++ listing files)) rest in
    match Py.int line with
    | None =>
        (Raise (native Py.ValueError
                  ("invalid literal for int() with base 10: '" +:+ line +:+ "'")), w')
    | Some choice =>
        if ((1 <=? choice) && (choice <=? Z.of_nat (length files)))%Z
        then match files !! Z.to_nat (choice - 1) with
             | Some file => (Ok file, w')
             | None => (Raise (native Py.IndexError "list index out of range"), w')
             end
        else (Raise (with_location Error.UnableToDownload resource_name "Invalid choice"), w')
    end.
Proof.
  intros Hok Hlen Hkeys Hin. unfold Drive.get_resource_by_name.
  rewrite (bind_ok _ _ _ _ _ (resolver_query_ok resource_name w Hok)).
  destruct (matches w resource_name) as [|f1 [|f2 files]] eqn:Hm;
    [simpl in Hlen; lia | simpl in Hlen; lia |].
  cbv zeta.
  unfold bind at 1, print at 1.
  unfold bind at 1. rewrite print_listing by exact Hkeys.
  unfold bind at 1, input at 1. cbn [stdin set_stdout stdout after_call set_faults].
  rewrite Hin.
  assert (Hw : set_stdin
      (set_stdout
         (set_stdout
            (set_stdout (after_call w) (stdout w ++ ["Multiple files/folders found:"]))
            ((stdout w ++ ["Multiple files/folders found:"]) ++
             imap (fun i file => listing_line (0 + i + 1) file) (f1 :: f2 :: files)))
         (((stdout w ++ ["Multiple files/folders found:"]) ++
           imap (fun i file => listing_line (0 + i + 1) file) (f1 :: f2 :: files)) ++
          [Drive.select_prompt (length (f1 :: f2 :: files))])) rest
    = set_stdin
        (set_stdout (after_call w) (stdout w ++ listing (f1 :: f2 :: files))) rest).
  { unfold listing, set_stdin, set_stdout, after_call, set_faults;
      cbn [env drive_created calls faults fs stdout stdin].
    f_equal. rewrite <- !app_assoc. reflexivity. }
  unfold after_call, set_faults, set_stdout, set_stdin in *.
  cbn [env drive_created calls faults fs stdout stdin] in *.
  rewrite Hw.
  destruct (Py.int line) as [choice|]; [|reflexivity].
  destruct ((1 <=? choice) && (choice <=? Z.of_nat (length (f1 :: f2 :: files))))%Z;
    [|reflexivity].
  destruct ((f1 :: f2 :: files) !! Z.to_nat (choice - 1)); reflexivity.
Qed.

(** When some match lacks a key of the listing, the resolver ends with
    [KeyError] and reads nothing. *)
Lemma resolver_key_error resource_name w :
  next_call_ok w = true ->
  (1 < length (matches w resource_name))%nat ->
  forallb listable (matches w resource_name) = false ->
  exists e w',
    Drive.get_resource_by_name error_str resource_name w = (Raise (Native e), w') /\
    Py.exn_class e = Py.KeyError /\ stdin w' = stdin w.
Proof.
  intros Hok Hlen Hkeys. unfold Drive.get_resource_by_name.
  rewrite (bind_ok _ _ _ _ _ (resolver_query_ok resource_name w Hok)).
  destruct (matches w resource_name) as [|f1 [|f2 files]] eqn:Hm;
    [simpl in Hlen; lia | simpl in Hlen; lia |].
  unfold bind at 1, print at 1. unfold bind at 1.
  destruct (print_listing_key_error (f1 :: f2 :: files) 0
              (set_stdout (after_call w) (stdout (after_call w) ++
                                          ["Multiple files/folders found:"])) Hkeys)
    as (e & w' & -> & He & Hin).
  exists e, w'. split; [reflexivity|]. split; [exact He | exact Hin].
Qed.

End Resolver.




(** C7, as the code has it: with N > 1 matches (each with the keys of the
    listing, so that the prompt is reached), a line that parses to an
    integer outside 1..N makes the resolver fail with an
    [UnableToDownload] error whose location is the supplied name and
    whose message is ["Invalid choice"]. *)
Theorem resolver_choice_out_of_range
    (error_str : Error.AdapterError -> string) (resource_name : string) (w : World)
    (line : string) (rest : list string) (k : Z) :
  next_call_ok w = true ->
  (1 < length (matches w resource_name))%nat ->
  forallb listable (matches w resource_name) = true ->
  stdin w = line :: rest ->
  Py.int line = Some k ->
  (k < 1 \/ Z.of_nat (length (matches w resource_name)) < k)%Z ->
  fst (Drive.get_resource_by_name error_str resource_name w)
  = Raise (with_location Error.UnableToDownload resource_name "Invalid choice").
Proof.
  intros Hok Hlen Hkeys Hin Hint Hk.
  rewrite (resolver_prompts error_str resource_name w line rest Hok Hlen Hkeys Hin).
  cbv zeta. rewrite Hint.
  replace ((1 <=? k) && (k <=? Z.of_nat (length (matches w resource_name))))%Z
    with false; [reflexivity|].
  symmetry. apply andb_false_iff.
  destruct Hk; [left; apply Z.leb_gt; lia | right; apply Z.leb_gt; lia].
Qed.

Lemma resolver_choice_out_of_range_witness :
  fst (Drive.get_resource_by_name Sample.error_str "report"
         (set_stdin Sample.world0 ["3"]))
  = Raise (with_location Error.UnableToDownload "report" "Invalid choice").
Proof.
  apply (resolver_choice_out_of_range Sample.error_str "report"
           (set_stdin Sample.world0 ["3"]) "3" [] 3%Z).
  - reflexivity.
  - simpl. lia.
  - reflexivity.
  - reflexivity.
  - reflexivity.
  - right. simpl. lia.
Defined.

(** C7 as stated fails: two folders are named [report] and the line
    entered is ["3"]; the error raised is not of kind [InvalidChoice]. *)
Lemma choice_three_of_two_not_invalid_choice :
  length (matches (set_stdin Sample.world0 ["3"]) "report") = 2%nat /\
  ~ exists location message,
      fst (Drive.get_resource_by_name Sample.error_str "report"
             (set_stdin Sample.world0 ["3"]))
      = Raise (with_location Error.InvalidChoice location message).
Proof.
  split; [reflexivity|].
  intros (location & message & H). vm_compute in H. discriminate H.
Qed.

(** C8, as the code has it: when the query answers no item, the
    resolver fails with an [UnableToDownload] error whose location is the
    supplied name and whose message is ["Resource not found"]; nothing is
    printed or read. *)
Theorem resolver_zero_matches
    (error_str : Error.AdapterError -> string) (resource_name : string) (w : World) :
  next_call_ok w = true ->
  matches w resource_name = [] ->
  Drive.get_resource_by_name error_str resource_name w
  = (Raise (with_location Error.UnableToDownload resource_name "Resource not found"),
     after_call w).
Proof.
  intros Hok Hm. unfold Drive.get_resource_by_name.
  rewrite (bind_ok _ _ _ _ _ (resolver_query_ok error_str resource_name w Hok)).
  rewrite Hm. reflexivity.
Qed.

Lemma resolver_zero_matches_witness :
  Drive.get_resource_by_name Sample.error_str "missing.txt" Sample.world0
  = (Raise (with_location Error.UnableToDownload "missing.txt" "Resource not found"),
     after_call Sample.world0).
Proof.
  apply (resolver_zero_matches Sample.error_str "missing.txt" Sample.world0).
  - reflexivity.
  - reflexivity.
Defined.

(** C8 as stated fails: no item is named [missing.txt], and the error
    raised is not of kind [NotFound]. *)
Lemma zero_matches_not_not_found :
  matches Sample.world0 "missing.txt" = [] /\
  ~ exists location message,
      fst (Drive.get_resource_by_name Sample.error_str "missing.txt" Sample.world0)
      = Raise (with_location Error.NotFound location message).
Proof.
  split; [reflexivity|].
  intros (location & message & H). vm_compute in H. discriminate H.
Qed.

(** C9: with N > 1 matches, an (ASCII) line that [int] rejects makes
    [get_resource_by_name] end with an exception of the interpreter, not
    with an adapter error: it carries neither kind nor location.  When
    every match has the keys of the listing, so that the prompt is
    reached and the line is read, that exception is the [ValueError] of
    [int]. *)
Theorem resolver_unparsable_choice_raises_value_error
    (error_str : Error.AdapterError -> string) (resource_name : string) (w : World)
    (line : string) (rest : list string) :
  next_call_ok w = true ->
  (1 < length (matches w resource_name))%nat ->
  stdin w = line :: rest ->
  Py.is_ascii line = true ->
  Py.int line = None ->
  exists e,
    fst (Drive.get_resource_by_name error_str resource_name w) = Raise (Native e) /\
    (forallb listable (matches w resource_name) = true ->
     Py.exn_class e = Py.ValueError).
Proof.
  intros Hok Hlen Hin _ Hint.
  destruct (forallb listable (matches w resource_name)) eqn:Hkeys.
  - rewrite (resolver_prompts error_str resource_name w line rest Hok Hlen Hkeys Hin).
    cbv zeta. rewrite Hint. eexists. split; reflexivity.
  - destruct (resolver_key_error error_str resource_name w Hok Hlen Hkeys)
      as (e & w' & -> & _ & _).
    exists e. split; [reflexivity | discriminate].
Qed.

Lemma resolver_unparsable_choice_raises_value_error_witness :
  exists e,
    fst (Drive.get_resource_by_name Sample.error_str "report"
           (set_stdin Sample.world0 ["two"])) = Raise (Native e) /\
    Py.exn_class e = Py.ValueError.
Proof.
  destruct (resolver_unparsable_choice_raises_value_error Sample.error_str "report"
              (set_stdin Sample.world0 ["two"]) "two" []) as (e & Hrun & Hclass).
  - reflexivity.
  - simpl. lia.
  - reflexivity.
  - reflexivity.
  - reflexivity.
  - exists e. split; [exact Hrun | apply Hclass; reflexivity].
Defined.

(** ** The credential life cycle (C4, C5) *)

(** The first step of the constructor when the token cache is a file:
    its bytes go through [pickle.load]. *)
Lemma init_loads_cache (creds_path p : string) (w : World) (content : list Byte.byte) :
  Py.truthy (Some p) = true ->
  fs w !! p = Some (File content) ->
  Drive.__init__ creds_path (Some p) w =
    match unpickle (env w) content with
    | Py.Raises e =>
        if Py.isinstance e Py.UnpicklingError
        then (Raise (with_location Error.UnableToFindDriveToken p "Can't pickle the token."), w)
        else (Raise (Native e), w)
    | Py.Returns loaded =>
        bind
          (if match loaded with Some c => negb (valid c) | None => true end
           then
             fresh <- (match loaded with
                       | Some c =>
                           if (expired c && Py.truthy (refresh_token c))%bool
                           then log_call (CredsRefresh c) ;;;
                                c' <- lift (oauth_refresh (env w) c) ;;
                                ret (Some c')
                           else Drive.authorize creds_path
                       | None => Drive.authorize creds_path
                       end) ;;
             Drive.dump_token (Some p) fresh ;;;
             ret fresh
           else ret loaded)
          (fun current =>
             log_call (Build current) ;;;
             remote_call ;;;
             ret (Drive.mkAdapter current)) w
    end.
Proof.
  intros Hp Hfile. unfold Drive.__init__.
  unfold bind at 1, ask at 1. rewrite Hp.
  unfold bind at 1, exists_ at 1. rewrite Hfile.
  replace (bool_decide (is_Some (Some (File content)))) with true
    by (symmetry; apply bool_decide_eq_true; eauto).
  unfold bind at 1. unfold bind at 1, read_file at 1. rewrite Hfile.
  unfold try_except, lift, Drive.is_a, raise.
  destruct (unpickle (env w) content) as [loaded|e]; [reflexivity|].
  destruct (Py.isinstance e Py.UnpicklingError); reflexivity.
Qed.

(** C4, where the code departs from it: the constructor maps a failed
    [pickle.load] to the adapter error only when the exception is an
    [UnpicklingError].  A cache file that exists and that [pickle.load]
    rejects with another exception (an empty or truncated file raises
    [EOFError]) makes the constructor raise that exception itself. *)
Theorem init_cache_load_failure_escapes
    (creds_path p : string) (w : World) (content : list Byte.byte) (e : Py.Exn) :
  Py.truthy (Some p) = true ->
  fs w !! p = Some (File content) ->
  unpickle (env w) content = Py.Raises e ->
  Py.isinstance e Py.UnpicklingError = false ->
  Drive.__init__ creds_path (Some p) w = (Raise (Native e), w).
Proof.
  intros Hp Hfile Hload Hcls.
  rewrite (init_loads_cache creds_path p w content Hp Hfile), Hload, Hcls.
  reflexivity.
Qed.

Lemma init_cache_load_failure_escapes_witness :
  Drive.__init__ "credentials.json" (Some Sample.token_path)
    (set_fs Sample.world0 {[ Sample.token_path := File [] ]})
  = (Raise (Native (Py.mkExn Py.EOFError "Ran out of input" "")),
     set_fs Sample.world0 {[ Sample.token_path := File [] ]}).
Proof.
  apply (init_cache_load_failure_escapes "credentials.json" Sample.token_path
           (set_fs Sample.world0 {[ Sample.token_path := File [] ]}) []).
  - reflexivity.
  - vm_compute. reflexivity.
  - reflexivity.
  - reflexivity.
Defined.

(** The case the constructor does handle: an [UnpicklingError] becomes
    [UnableToFindDriveToken] at the token path, and nothing else happens. *)
Lemma init_unpickling_error
    (creds_path p : string) (w : World) (content : list Byte.byte) (e : Py.Exn) :
  Py.truthy (Some p) = true ->
  fs w !! p = Some (File content) ->
  unpickle (env w) content = Py.Raises e ->
  Py.isinstance e Py.UnpicklingError = true ->
  Drive.__init__ creds_path (Some p) w
  = (Raise (with_location Error.UnableToFindDriveToken p "Can't pickle the token."), w).
Proof.
  intros Hp Hfile Hload Hcls.
  rewrite (init_loads_cache creds_path p w content Hp Hfile), Hload, Hcls.
  reflexivity.
Qed.

(** C5, as the code has it: when the cached credential is not valid, is
    expired and has a refresh token, the constructor calls [refresh] and,
    if that raises, the exception leaves the constructor as it is.  The
    only library call made is the refresh: no authorization flow is
    started, the cache file is not rewritten, no adapter is returned. *)
Theorem init_refresh_failure_propagates
    (creds_path p : string) (w : World) (content : list Byte.byte)
    (c : Credentials) (e : Py.Exn) :
  Py.truthy (Some p) = true ->
  fs w !! p = Some (File content) ->
  unpickle (env w) content = Py.Returns (Some c) ->
  valid c = false ->
  expired c = true ->
  Py.truthy (refresh_token c) = true ->
  oauth_refresh (env w) c = Py.Raises e ->
  Drive.__init__ creds_path (Some p) w
  = (Raise (Native e), set_calls w (calls w ++ [CredsRefresh c])).
Proof.
  intros Hp Hfile Hload Hvalid Hexpired Htoken Hrefresh.
  rewrite (init_loads_cache creds_path p w content Hp Hfile), Hload.
  rewrite Hvalid, Hexpired, Htoken. cbn [negb andb].
  unfold bind, log_call, lift. rewrite Hrefresh. reflexivity.
Qed.

Lemma init_refresh_failure_propagates_witness :
  Drive.__init__ "credentials.json" (Some Sample.token_path)
    (set_fs Sample.world0 {[ Sample.token_path := File (Sample.bytes "creds") ]})
  = (Raise (Native (Py.mkExn Py.RefreshError
                      "invalid_grant: Token has been expired or revoked." "")),
     set_calls
       (set_fs Sample.world0 {[ Sample.token_path := File (Sample.bytes "creds") ]})
       [CredsRefresh Sample.stale]).
Proof.
  apply (init_refresh_failure_propagates "credentials.json" Sample.token_path
           (set_fs Sample.world0 {[ Sample.token_path := File (Sample.bytes "creds") ]})
           (Sample.bytes "creds") Sample.stale).
  - reflexivity.
  - vm_compute. reflexivity.
  - reflexivity.
  - reflexivity.
  - reflexivity.
  - reflexivity.
  - reflexivity.
Defined.

(** The sample run behind the next lemma: a cache holding [stale]. *)
Lemma stale_cache_run :
  Drive.__init__ "credentials.json" (Some Sample.token_path)
    (set_fs Sample.world0 {[ Sample.token_path := File (Sample.bytes "creds") ]})
  = (Raise (Native (Py.mkExn Py.RefreshError
                      "invalid_grant: Token has been expired or revoked." "")),
     set_calls
       (set_fs Sample.world0 {[ Sample.token_path := File (Sample.bytes "creds") ]})
       [CredsRefresh Sample.stale]).
Proof.
  rewrite (init_loads_cache "credentials.json" Sample.token_path _ (Sample.bytes "creds"));
    [reflexivity | reflexivity | vm_compute; reflexivity].
Qed.

(** C5 as stated fails: the cached credential is expired and has a
    refresh token, the refresh fails, and the constructor ends with the
    refresh failure without having run the authorization flow. *)
Lemma refresh_failure_no_reauthorization :
  let w := set_fs Sample.world0 {[ Sample.token_path := File (Sample.bytes "creds") ]} in
  let run := Drive.__init__ "credentials.json" (Some Sample.token_path) w in
  unpickle (env w) (Sample.bytes "creds") = Py.Returns (Some Sample.stale) /\
  expired Sample.stale = true /\
  Py.truthy (refresh_token Sample.stale) = true /\
  (exists e, oauth_refresh (env w) Sample.stale = Py.Raises e /\
             fst run = Raise (Native e)) /\
  (forall creds_path, FromClientSecretsFile creds_path ∉ calls (snd run)) /\
  (forall flow, RunLocalServer flow ∉ calls (snd run)).
Proof.
  cbv zeta. rewrite stale_cache_run.
  repeat split; try reflexivity.
  - eexists. split; reflexivity.
  - intros creds_path H. simpl in H. apply list_elem_of_singleton in H. discriminate H.
  - intros flow H. simpl in H. apply list_elem_of_singleton in H. discriminate H.
Qed.

(** ** Selective download from the hub (C10) *)

(** A library routine records its call and either returns or raises. *)
Lemma library_run (c : LibCall) (w : World) :
  exists res w', HuggingFace.library c w = (res, w') /\
                 calls w' = calls w ++ [c] /\ env w' = env w.
Proof.
  unfold HuggingFace.library, bind, log_call, remote_call.
  cbn [faults set_calls calls].
  destruct (faults w) as [|[e|] rest]; eexists _, _; (split; [reflexivity|]); split; reflexivity.
Qed.

Lemma translate_raises {A} error_str k repo_id r w :
  exists r', @HuggingFace.translate error_str A k repo_id r w = (Raise r', w).
Proof.
  unfold HuggingFace.translate.
  repeat match goal with |- context [if ?b then _ else _] => destruct b end;
    eexists; reflexivity.
Qed.

(** Without a fault left in the script, it returns. *)
Lemma library_no_fault (c : LibCall) (w : World) :
  faults w = [] ->
  exists w', HuggingFace.library c w = (Ok tt, w') /\ faults w' = [].
Proof.
  intros H. unfold HuggingFace.library, bind, log_call, remote_call.
  cbn [faults set_calls]. rewrite H. eexists. split; reflexivity.
Qed.

Lemma download_loop_no_fault (repo_id local_dir resource : string) (files : list string) :
  forall w, faults w = [] ->
    fst (for_each files (HuggingFace.download_one repo_id local_dir resource) w) = Ok tt.
Proof.
  induction files as [|f files IH]; intros w Hw; [reflexivity|].
  simpl. unfold bind at 1, HuggingFace.download_one at 1.
  destruct (Py.startswith f resource); [|apply IH, Hw].
  unfold bind at 1.
  destruct (library_no_fault (HfHubDownload repo_id f (Py.join local_dir "tmp")) w Hw)
    as (w1 & -> & Hw1).
  unfold bind at 1.
  destruct (library_no_fault
              (ShutilMove (Py.join (Py.join local_dir "tmp") resource)
                 (Py.join local_dir (Py.after_last_slash resource))) w1 Hw1)
    as (w2 & -> & Hw2).
  destruct (library_no_fault (ShutilRmtree (Py.join local_dir "tmp")) w2 Hw2)
    as (w3 & -> & Hw3).
  apply IH, Hw3.
Qed.

Lemma download_loop_calls (repo_id local_dir resource : string) (files : list string) :
  forall w res w',
    for_each files (HuggingFace.download_one repo_id local_dir resource) w = (res, w') ->
    exists new,
      calls w' = calls w ++ new /\
      fetched new `prefix_of`
        List.filter (fun file_path => Py.startswith file_path resource) files /\
      (res = Ok tt ->
       fetched new = List.filter (fun file_path => Py.startswith file_path resource) files).
Proof.
  induction files as [|f files IH]; intros w res w' Hrun.
  - injection Hrun as <- <-. exists []. rewrite app_nil_r.
    split; [reflexivity|]. split; [apply prefix_nil | reflexivity].
  - simpl in Hrun. unfold bind at 1, HuggingFace.download_one at 1 in Hrun.
    simpl List.filter.
    destruct (Py.startswith f resource); [|apply (IH w res w' Hrun)].
    unfold bind at 1 in Hrun.
    destruct (library_run (HfHubDownload repo_id f (Py.join local_dir "tmp")) w)
      as (r1 & w1 & E1 & C1 & _).
    rewrite E1 in Hrun. destruct r1 as [[]|r1].
    2:{ injection Hrun as <- <-. eexists [_].
        split; [exact C1|]. split; [apply prefix_cons, prefix_nil | discriminate]. }
    unfold bind at 1 in Hrun.
    destruct (library_run (ShutilMove (Py.join (Py.join local_dir "tmp") resource)
                             (Py.join local_dir (Py.after_last_slash resource))) w1)
      as (r2 & w2 & E2 & C2 & _).
    rewrite E2 in Hrun. destruct r2 as [[]|r2].
    2:{ injection Hrun as <- <-. eexists [_; _].
        split; [rewrite C2, C1, <- app_assoc; reflexivity|].
        split; [apply prefix_cons, prefix_nil | discriminate]. }
    destruct (library_run (ShutilRmtree (Py.join local_dir "tmp")) w2)
      as (r3 & w3 & E3 & C3 & _).
    rewrite E3 in Hrun. destruct r3 as [[]|r3].
    2:{ injection Hrun as <- <-. eexists [_; _; _].
        split; [rewrite C3, C2, C1, <- !app_assoc; reflexivity|].
        split; [apply prefix_cons, prefix_nil | discriminate]. }
    destruct (IH w3 res w' Hrun) as (new & Hcalls & Hpre & Hok).
    eexists (_ :: _ :: _ :: new). split; [|split].
    + rewrite Hcalls, C3, C2, C1, <- !app_assoc. reflexivity.
    + apply prefix_cons, Hpre.
    + intros H. simpl. f_equal. apply Hok, H.
Qed.

Lemma hub_download_runs error_str repo_id local_dir resource w :
  Py.truthy (Some resource) = true ->
  exists res w' new,
    HuggingFace.download error_str repo_id local_dir (Some resource) w = (res, w') /\
    calls w' = calls w ++ ListRepoFiles repo_id :: new /\
    fetched new `prefix_of`
      List.filter (fun file_path => Py.startswith file_path resource)
        (hub_files (env w) repo_id) /\
    (res = Ok tt ->
     fetched new = List.filter (fun file_path => Py.startswith file_path resource)
                     (hub_files (env w) repo_id)) /\
    (faults w = [] -> res = Ok tt).
Proof.
  intros Htruthy. unfold HuggingFace.download. rewrite Htruthy.
  unfold bind at 1, try_except at 1, bind at 1, HuggingFace.list_repo_files at 1,
    bind at 1.
  destruct (library_run (ListRepoFiles repo_id) w) as (r0 & w0 & E0 & C0 & Henv).
  rewrite E0. destruct r0 as [[]|r0].
  2:{ destruct (@translate_raises unit error_str Error.UnableToDownload repo_id r0 w0)
        as (r' & ->).
      exists (Raise r'), w0, []. split; [reflexivity|]. split; [exact C0|].
      split; [apply prefix_nil|]. split; [discriminate|].
      intros Hw. destruct (library_no_fault (ListRepoFiles repo_id) w Hw) as (w2 & E2 & _).
      rewrite E2 in E0. discriminate E0. }
  unfold bind at 1, ask at 1, ret at 1. rewrite Henv.
  destruct (for_each (hub_files (env w) repo_id)
              (HuggingFace.download_one repo_id local_dir resource) w0)
    as [res w1] eqn:Hloop.
  destruct (download_loop_calls _ _ _ _ _ _ _ Hloop) as (new & Hcalls & Hpre & Hok).
  destruct res as [[]|r].
  - exists (Ok tt), (set_stdout w1 (stdout w1 ++ ["Resource downloaded to " +:+ local_dir])), new.
    split; [reflexivity|]. split; [|split; [exact Hpre | split; [exact Hok | reflexivity]]].
    simpl. rewrite Hcalls, C0, <- app_assoc. reflexivity.
  - destruct (@translate_raises unit error_str Error.UnableToDownload repo_id r w1)
      as (r' & ->).
    exists (Raise r'), w1, new. split; [reflexivity|].
    split; [rewrite Hcalls, C0, <- app_assoc; reflexivity|].
    split; [exact Hpre|]. split; [discriminate|].
    intros Hw. destruct (library_no_fault (ListRepoFiles repo_id) w Hw) as (w2 & E2 & Hw2).
    rewrite E2 in E0. injection E0 as <-.
    pose proof (download_loop_no_fault repo_id local_dir resource
                  (hub_files (env w) repo_id) w2 Hw2) as Hfst.
    rewrite Hloop in Hfst. discriminate Hfst.
Qed.

(** C10: [download] with a non-empty [resource] asks the hub for the
    repository's files and hands to [hf_hub_download], in listing order,
    the files whose path starts with [resource] as a string: the files
    fetched are a prefix of that selection, all of it when the call
    returns, and it returns when no library call fails.  The test is on
    characters, not on path components: for the resource [data] the
    sibling file [data2.txt] is selected although it is neither [data]
    nor under [data/]. *)
Theorem hub_download_selects_by_prefix
    (error_str : Error.AdapterError -> string)
    (repo_id local_dir resource : string) (w : World) :
  Py.truthy (Some resource) = true ->
  let selected :=
    List.filter (fun file_path => Py.startswith file_path resource)
      (hub_files (env w) repo_id) in
  (exists res w' new,
     HuggingFace.download error_str repo_id local_dir (Some resource) w = (res, w') /\
     calls w' = calls w ++ ListRepoFiles repo_id :: new /\
     fetched new `prefix_of` selected /\
     (res = Ok tt -> fetched new = selected) /\
     (faults w = [] -> res = Ok tt)) /\
  (Py.startswith "data2.txt" "data" = true /\ at_or_under "data" "data2.txt" = false).
Proof.
  intros Htruthy. split; [|split; reflexivity].
  apply hub_download_runs, Htruthy.
Qed.

Lemma hub_download_selects_by_prefix_witness :
  (exists res w' new,
     HuggingFace.download Sample.error_str "org/repo" "out" (Some "data") Sample.world0
       = (res, w') /\
     calls w' = calls Sample.world0 ++ ListRepoFiles "org/repo" :: new /\
     fetched new `prefix_of` ["data/a.txt"; "data2.txt"] /\
     (res = Ok tt -> fetched new = ["data/a.txt"; "data2.txt"]) /\
     (faults Sample.world0 = [] -> res = Ok tt)) /\
  (Py.startswith "data2.txt" "data" = true /\ at_or_under "data" "data2.txt" = false).
Proof.
  apply (hub_download_selects_by_prefix Sample.error_str "org/repo" "out" "data"
           Sample.world0).
  reflexivity.
Defined.

(** The same run, evaluated: both [data/a.txt] and [data2.txt] are
    fetched, [other.bin] is not. *)
Lemma hub_download_sample_run :
  let run := HuggingFace.download Sample.error_str "org/repo" "out" (Some "data")
               Sample.world0 in
  fst run = Ok tt /\
  calls (snd run) =
    [ListRepoFiles "org/repo";
     HfHubDownload "org/repo" "data/a.txt" "out/tmp";
     ShutilMove "out/tmp/data" "out/data"; ShutilRmtree "out/tmp";
     HfHubDownload "org/repo" "data2.txt" "out/tmp";
     ShutilMove "out/tmp/data" "out/data"; ShutilRmtree "out/tmp"].
Proof. split; reflexivity. Qed.

(** ** Folder download (C1) *)

(** C1, where the code departs from it.  The Drive folder [root] holds
    the folder [sub], which holds [f.txt] (served in two chunks).
    [download_folder] creates [dest/root/sub] for the subfolder and then
    hands that path to the recursive call as its [download_path], where
    the subfolder's name is joined a second time (line 221): the file
    lands in [dest/root/sub/sub/f.txt], with its content intact, and
    [dest/root/sub], the directory the remote nesting calls for, holds
    no file. *)
Theorem download_folder_nests_subfolder_twice
    (error_str : Error.AdapterError -> string) :
  let run := Drive.download_folder error_str 3 "R0" "root" "dest" Sample.world0 in
  fst run = Ok tt /\
  fs (snd run) !! "dest/root/sub/sub/f.txt" = Some (File (Sample.bytes "hello")) /\
  fs (snd run) !! "dest/root/sub/f.txt" = None /\
  fs (snd run) !! "dest/root/sub/sub" = Some Dir /\
  fs (snd run) !! "dest/root/sub" = Some Dir /\
  fs (snd run) !! "dest/root" = Some Dir /\
  fs (snd run) !! "dest" = Some Dir /\
  size (fs (snd run)) = 5%nat.
Proof. cbv zeta. repeat split; vm_compute; reflexivity. Qed.

(** ** Folder upload (C2) *)

Section Upload.

Variable error_str : Error.AdapterError -> string.

(** [create_directory] reads its second argument as a dict.  Given a
    string, as [upload_folder] does, it looks for the characters
    ["parent_id"] inside it and, not finding them, sends a body without
    [parents]. *)
Lemma create_directory_given_str (path s : string) (w : World) :
  next_call_ok w = true ->
  Py.str_contains "parent_id" s = false ->
  Drive.create_directory error_str path (Py.VStr s) w =
    let new_id := drive_new_id (env w) (length (drive_created w)) in
    (Ok (Some new_id),
     set_created (after_call w)
       (drive_created w ++
        [mkCreated new_id (mkMetadata path (Some Drive.FOLDER_MIME) None) None])).
Proof.
  intros Hok Hs. unfold Drive.create_directory.
  unfold bind at 1, Drive.contains at 1, ret at 1. rewrite Hs.
  unfold bind at 1, ret at 1. apply try_except_ok.
  unfold Drive.files_create. rewrite (bind_ok _ _ _ _ _ (remote_call_ok w Hok)).
  reflexivity.
Qed.

(** Given [None], the membership test itself raises [TypeError]; no
    request is sent. *)
Lemma create_directory_given_none (path : string) (w : World) :
  Drive.create_directory error_str path Py.VNone w =
    (Raise (native Py.TypeError "argument of type 'NoneType' is not iterable"), w).
Proof. reflexivity. Qed.

(** So [upload_folder] without a parent fails before anything is
    created, whatever the folder. *)
Lemma upload_folder_without_parent (depth : nat) (folder_path : string) (w : World) :
  Drive.upload_folder error_str (S depth) folder_path None w =
    (Raise (with_location Error.UnableToUpload folder_path
              "argument of type 'NoneType' is not iterable"), w).
Proof. reflexivity. Qed.

End Upload.

(** C2, where the code departs from it.  The local directory [photos]
    holds [b.txt] and the directory [2020], which holds [a.jpg]; the
    parent id is [P1].  Four items are created.  The two files are
    parented under the folder created for their directory, but neither
    folder has a parent: [photos] is not placed under [P1], and [2020]
    is not placed under the folder created for [photos].  Without a
    parent id the upload fails with [UnableToUpload] and creates nothing. *)
Theorem upload_folder_creates_unparented_folders
    (error_str : Error.AdapterError -> string) :
  let w := set_fs Sample.world0 Sample.photos in
  let run := Drive.upload_folder error_str 3 "photos" (Some "P1") w in
  fst run = Ok tt /\
  drive_created (snd run) =
    [mkCreated "id0" (mkMetadata "photos" (Some Drive.FOLDER_MIME) None) None;
     mkCreated "id1" (mkMetadata "2020" (Some Drive.FOLDER_MIME) None) None;
     mkCreated "id2" (mkMetadata "a.jpg" None (Some ["id1"])) (Some (Sample.bytes "x"));
     mkCreated "id3" (mkMetadata "b.txt" None (Some ["id0"])) (Some (Sample.bytes "y"))] /\
  (exists message,
     fst (Drive.upload_folder error_str 3 "photos" None w)
     = Raise (with_location Error.UnableToUpload "photos" message)) /\
  drive_created (snd (Drive.upload_folder error_str 3 "photos" None w)) = [].
Proof.
  cbv zeta. split; [vm_compute; reflexivity|]. split; [vm_compute; reflexivity|].
  split; [eexists; vm_compute; reflexivity | vm_compute; reflexivity].
Qed.

(** * Further properties of the adapters *)

(** ** More on the credential life cycle *)

(** The constructor when the token path is unusable or names nothing:
    no credential is loaded and the authorization flow is next. *)
Lemma init_without_cache (creds_path : string) (token_path : option string) (w : World) :
  (forall p, token_path = Some p -> Py.truthy token_path = true -> fs w !! p = None) ->
  Drive.__init__ creds_path token_path w =
    bind (fresh <- Drive.authorize creds_path ;;
          Drive.dump_token token_path fresh ;;;
          ret fresh)
      (fun current =>
         log_call (Build current) ;;;
         remote_call ;;;
         ret (Drive.mkAdapter current)) w.
Proof.
  intros Habsent. unfold Drive.__init__.
  unfold bind at 1, ask at 1.
  destruct token_path as [p|]; [|reflexivity].
  destruct (Py.truthy (Some p)) eqn:Ht; [|reflexivity].
  unfold bind at 1, exists_ at 1. rewrite (Habsent p eq_refl eq_refl).
  replace (bool_decide (is_Some (@None FsEntry))) with false; [reflexivity|].
  symmetry. apply bool_decide_eq_false. intros [x Hx]. discriminate Hx.
Qed.

Lemma authorize_ok (creds_path flow : string) (fresh : option Credentials) (w : World) :
  client_secrets (env w) creds_path = Py.Returns flow ->
  local_server (env w) flow = Py.Returns fresh ->
  Drive.authorize creds_path w =
    (Ok fresh, set_calls w (calls w ++ [FromClientSecretsFile creds_path; RunLocalServer flow])).
Proof.
  intros Hs Hl. unfold Drive.authorize.
  unfold bind, ask, try_except, log_call, lift. cbn [env set_calls calls].
  rewrite Hs. cbn [env set_calls calls]. rewrite Hl.
  rewrite <- app_assoc. reflexivity.
Qed.

Lemma write_file_ok (path : string) (content : list Byte.byte) (w : World) :
  writable path (fs w) = true ->
  write_file path content w = (Ok tt, set_fs w (<[path := File content]> (fs w))).
Proof.
  unfold writable, write_file. intros H.
  apply andb_true_iff in H as [H Hparent].
  apply andb_true_iff in H as [H Hslash].
  apply andb_true_iff in H as [Hdir Hne].
  rewrite Hparent.
  destruct (Py.endswith_slash path); [discriminate Hslash|].
  destruct (String.eqb path ""); [discriminate Hne|].
  destruct (fs w !! path) as [[|c]|]; [discriminate Hdir | reflexivity | reflexivity].
Qed.

(** X1: a token cache that unpickles to a valid credential is used as it
    is.  The constructor makes no library call but [build]: it neither
    refreshes nor starts the authorization flow, and it does not rewrite
    the cache file. *)
Theorem init_valid_cache_reused
    (creds_path p : string) (w : World) (content : list Byte.byte) (c : Credentials) :
  Py.truthy (Some p) = true ->
  fs w !! p = Some (File content) ->
  unpickle (env w) content = Py.Returns (Some c) ->
  valid c = true ->
  next_call_ok w = true ->
  Drive.__init__ creds_path (Some p) w
  = (Ok (Drive.mkAdapter (Some c)),
     after_call (set_calls w (calls w ++ [Build (Some c)]))).
Proof.
  intros Hp Hfile Hload Hvalid Hok.
  rewrite (init_loads_cache creds_path p w content Hp Hfile), Hload, Hvalid.
  cbn [negb]. unfold bind at 1, ret at 1. unfold bind at 1, log_call at 1.
  rewrite (bind_ok _ _ _ _ _ (remote_call_ok (set_calls w _) Hok)). reflexivity.
Qed.

Lemma init_valid_cache_reused_witness :
  Drive.__init__ "credentials.json" (Some Sample.token_path) (Scenario.cached "valid")
  = (Ok (Drive.mkAdapter (Some Sample.granted)),
     after_call (set_calls (Scenario.cached "valid") [Build (Some Sample.granted)])).
Proof.
  apply (init_valid_cache_reused "credentials.json" Sample.token_path
           (Scenario.cached "valid") (Sample.bytes "valid") Sample.granted).
  - reflexivity.
  - vm_compute. reflexivity.
  - reflexivity.
  - reflexivity.
  - reflexivity.
Defined.

(** The construction over a cache that holds an expired credential with
    a refresh token, when the refresh succeeds: refresh, write the cache,
    build the service. *)
Lemma init_refresh_run
    (creds_path p : string) (w : World) (content : list Byte.byte)
    (c c' : Credentials) :
  Py.truthy (Some p) = true ->
  fs w !! p = Some (File content) ->
  unpickle (env w) content = Py.Returns (Some c) ->
  valid c = false ->
  expired c = true ->
  Py.truthy (refresh_token c) = true ->
  oauth_refresh (env w) c = Py.Returns c' ->
  writable p (fs w) = true ->
  Drive.__init__ creds_path (Some p) w =
    let w1 := set_fs (set_calls w (calls w ++ [CredsRefresh c; Build (Some c')]))
                (<[p := File (pickle_dumps (env w) (Some c'))]> (fs w)) in
    match faults w with
    | Some e :: rest => (Raise (Native e), set_faults w1 rest)
    | _ => (Ok (Drive.mkAdapter (Some c')), set_faults w1 (tail (faults w)))
    end.
Proof.
  intros Hp Hfile Hload Hvalid Hexpired Htoken Hrefresh Hw.
  rewrite (init_loads_cache creds_path p w content Hp Hfile), Hload.
  rewrite Hvalid, Hexpired, Htoken. cbn [negb andb].
  unfold bind at 1. unfold bind at 1. unfold bind at 1, log_call at 1.
  unfold bind at 1, lift at 1. cbn [env set_calls]. rewrite Hrefresh.
  unfold ret at 1. unfold bind at 1, Drive.dump_token at 1.
  unfold bind at 1, ask at 1.
  rewrite write_file_ok by exact Hw.
  unfold ret at 1. unfold bind at 1, log_call at 1.
  unfold bind, remote_call, ret. cbn [faults set_calls set_fs calls env].
  rewrite <- app_assoc.
  destruct (faults w) as [|[e|] rest]; reflexivity.
Qed.

(** X2: when the cached credential is not valid, is expired and has a
    refresh token, and the refresh succeeds, the refreshed credential is
    pickled over the cache file before the service is built: the cache
    holds it whether or not building the service then succeeds.  The
    only library calls are the refresh and [build]; the authorization
    flow is not started.  When [build] succeeds the adapter holds the
    refreshed credential; when it raises, that exception leaves the
    constructor. *)
Theorem init_refresh_success_persisted
    (creds_path p : string) (w : World) (content : list Byte.byte)
    (c c' : Credentials) :
  Py.truthy (Some p) = true ->
  fs w !! p = Some (File content) ->
  unpickle (env w) content = Py.Returns (Some c) ->
  valid c = false ->
  expired c = true ->
  Py.truthy (refresh_token c) = true ->
  oauth_refresh (env w) c = Py.Returns c' ->
  writable p (fs w) = true ->
  let run := Drive.__init__ creds_path (Some p) w in
  fs (snd run) = <[p := File (pickle_dumps (env w) (Some c'))]> (fs w) /\
  calls (snd run) = calls w ++ [CredsRefresh c; Build (Some c')] /\
  (next_call_ok w = true ->
   run = (Ok (Drive.mkAdapter (Some c')),
          after_call
            (set_fs
               (set_calls w (calls w ++ [CredsRefresh c; Build (Some c')]))
               (<[p := File (pickle_dumps (env w) (Some c'))]> (fs w))))) /\
  (forall e rest, faults w = Some e :: rest -> fst run = Raise (Native e)).
Proof.
  intros Hp Hfile Hload Hvalid Hexpired Htoken Hrefresh Hw run. subst run.
  rewrite (init_refresh_run creds_path p w content c c'
             Hp Hfile Hload Hvalid Hexpired Htoken Hrefresh Hw).
  cbv zeta. unfold next_call_ok, after_call.
  cbn [faults set_fs set_calls].
  destruct (faults w) as [|[e|] rest]; repeat split; try reflexivity;
    try discriminate; intros e' rest' [= <- _]; reflexivity.
Qed.

Lemma init_refresh_success_persisted_witness :
  let run := Drive.__init__ "credentials.json" (Some Sample.token_path)
               (Scenario.cached "creds") in
  fs (snd run) = <[Sample.token_path := File (Sample.bytes "valid")]>
                   (fs (Scenario.cached "creds")) /\
  calls (snd run) = [CredsRefresh Sample.stale; Build (Some Sample.granted)] /\
  fst run = Ok (Drive.mkAdapter (Some Sample.granted)).
Proof.
  destruct (init_refresh_success_persisted "credentials.json" Sample.token_path
              (Scenario.cached "creds") (Sample.bytes "creds") Sample.stale Sample.granted)
    as (Hfs & Hcalls & Hrun & _).
  - reflexivity.
  - vm_compute. reflexivity.
  - reflexivity.
  - reflexivity.
  - reflexivity.
  - reflexivity.
  - reflexivity.
  - vm_compute. reflexivity.
  - cbv zeta. split; [exact Hfs|]. split; [exact Hcalls|].
    rewrite (Hrun eq_refl). reflexivity.
Defined.

(** X3: without a usable cache the constructor reads the credentials
    descriptor.  If that raises [JSONDecodeError] the constructor fails
    with [UnableToReadCredentialFile] at the descriptor's path; any other
    exception (a missing descriptor, say) leaves the constructor as it
    is.  Either way [run_local_server] is not called and the cache file
    is not written. *)
Theorem init_credentials_file_unreadable
    (creds_path : string) (token_path : option string) (w : World) (e : Py.Exn) :
  (forall p, token_path = Some p -> Py.truthy token_path = true -> fs w !! p = None) ->
  client_secrets (env w) creds_path = Py.Raises e ->
  Drive.__init__ creds_path token_path w
  = (Raise (if Py.isinstance e Py.JSONDecodeError
            then with_location Error.UnableToReadCredentialFile creds_path
                   "The input credential file is not JSON formatted."
            else Native e),
     set_calls w (calls w ++ [FromClientSecretsFile creds_path])).
Proof.
  intros Habsent Hs. rewrite (init_without_cache creds_path token_path w Habsent).
  unfold bind at 1. unfold bind at 1. unfold Drive.authorize at 1.
  unfold bind, ask, try_except, log_call, lift, Drive.is_a, raise.
  cbn [env set_calls]. rewrite Hs.
  destruct (Py.isinstance e Py.JSONDecodeError); reflexivity.
Qed.

Lemma init_credentials_file_unreadable_witness :
  Drive.__init__ "broken.json" (Some Sample.token_path) Scenario.fresh
  = (Raise (with_location Error.UnableToReadCredentialFile "broken.json"
              "The input credential file is not JSON formatted."),
     set_calls Scenario.fresh [FromClientSecretsFile "broken.json"]).
Proof.
  apply (init_credentials_file_unreadable "broken.json" (Some Sample.token_path)
           Scenario.fresh
           (Py.mkExn Py.JSONDecodeError "Expecting value: line 1 column 1 (char 0)" "")).
  - intros p [= <-] _. vm_compute. reflexivity.
  - reflexivity.
Defined.

(** X4: with a token path that is [None] or empty the constructor never
    returns an adapter, and the local files are as before.  The guard of
    line 37 skips the load, so the authorization flow is started; when
    it completes, [open(token_path, "wb")] at line 60 raises, a
    [TypeError] for [None] and a [FileNotFoundError] for the empty
    string, and that exception leaves the constructor: the flow's two
    library calls have been made, [build] has not. *)
Theorem init_without_token_path_never_returns
    (creds_path : string) (token_path : option string) (w : World) :
  Py.truthy token_path = false ->
  (exists r w',
     Drive.__init__ creds_path token_path w = (Raise r, w') /\ fs w' = fs w) /\
  (forall flow fresh,
     client_secrets (env w) creds_path = Py.Returns flow ->
     local_server (env w) flow = Py.Returns fresh ->
     exists e,
       Drive.__init__ creds_path token_path w =
         (Raise (Native e),
          set_calls w (calls w ++ [FromClientSecretsFile creds_path; RunLocalServer flow])) /\
       (token_path = None -> Py.exn_class e = Py.TypeError) /\
       (token_path = Some "" -> fs w !! "" = None ->
        Py.exn_class e = Py.FileNotFoundError)).
Proof.
  intros Ht.
  rewrite (init_without_cache creds_path token_path w)
    by (intros p _ H; rewrite H in Ht; discriminate Ht).
  split.
  - unfold bind at 1. unfold bind at 1.
    assert (Hauth : forall res w1, Drive.authorize creds_path w = (res, w1) -> fs w1 = fs w).
    { intros res w1. unfold Drive.authorize, bind, ask, try_except, log_call, lift, raise.
      cbn [env set_calls].
      destruct (client_secrets (env w) creds_path) as [flow|e].
      - destruct (local_server (env w) flow); intros H; inversion H; reflexivity.
      - destruct (Drive.is_a (Native e) Py.JSONDecodeError); intros H; inversion H;
          reflexivity. }
    destruct (Drive.authorize creds_path w) as [[fresh|r] w1] eqn:Hrun;
      pose proof (Hauth _ _ eq_refl) as Hfs.
    + unfold bind at 1.
      destruct token_path as [p|].
      * destruct p as [|ch p]; [|discriminate Ht].
        unfold Drive.dump_token, bind, ask, write_file. cbn [String.eqb].
        destruct (fs w1 !! "") as [[|?]|]; eexists _, _; (split; [reflexivity | exact Hfs]).
      * unfold Drive.dump_token, raise. eexists _, _. split; [reflexivity | exact Hfs].
    + eexists _, _. split; [reflexivity | exact Hfs].
  - intros flow fresh Hs Hl.
    unfold bind at 1. unfold bind at 1.
    rewrite (authorize_ok creds_path flow fresh w Hs Hl).
    unfold bind at 1.
    destruct token_path as [p|].
    + destruct p as [|ch p]; [|discriminate Ht].
      unfold Drive.dump_token, bind, ask, write_file. cbn [String.eqb fs set_calls].
      destruct (fs w !! "") as [[|?]|] eqn:Hroot; eexists;
        (split; [reflexivity|]); (split; [discriminate|]);
        intros _ H; try discriminate H; reflexivity.
    + unfold Drive.dump_token, raise. eexists. split; [reflexivity|].
      split; [reflexivity | discriminate].
Qed.

Lemma init_without_token_path_never_returns_witness :
  (exists r w',
     Drive.__init__ "credentials.json" None Scenario.fresh = (Raise r, w') /\
     fs w' = fs Scenario.fresh) /\
  exists e,
    Drive.__init__ "credentials.json" None Scenario.fresh =
      (Raise (Native e),
       set_calls Scenario.fresh
         (calls Scenario.fresh ++
          [FromClientSecretsFile "credentials.json";
           RunLocalServer "flow:credentials.json"])) /\
    Py.exn_class e = Py.TypeError.
Proof.
  destruct (init_without_token_path_never_returns "credentials.json" None Scenario.fresh
              eq_refl) as [Hnever Hflow].
  split; [exact Hnever|].
  destruct (Hflow "flow:credentials.json" (Some Sample.granted) eq_refl eq_refl)
    as (e & Hrun & Hnone & _).
  exists e. split; [exact Hrun | exact (Hnone eq_refl)].
Defined.

(** The first construction on a machine without a cache: authorize,
    write the cache, build the service. *)
Lemma init_first_run
    (creds_path p flow : string) (w : World) (fresh : option Credentials) :
  fs w !! p = None ->
  writable p (fs w) = true ->
  client_secrets (env w) creds_path = Py.Returns flow ->
  local_server (env w) flow = Py.Returns fresh ->
  Drive.__init__ creds_path (Some p) w =
    let w1 := set_fs (set_calls w (calls w ++ [FromClientSecretsFile creds_path;
                                               RunLocalServer flow; Build fresh]))
                (<[p := File (pickle_dumps (env w) fresh)]> (fs w)) in
    match faults w with
    | Some e :: rest => (Raise (Native e), set_faults w1 rest)
    | _ => (Ok (Drive.mkAdapter fresh), set_faults w1 (tail (faults w)))
    end.
Proof.
  intros Hnone Hw Hs Hl.
  rewrite (init_without_cache creds_path (Some p) w)
    by (intros q [= <-] _; exact Hnone).
  unfold bind at 1. unfold bind at 1.
  rewrite (authorize_ok creds_path flow fresh w Hs Hl).
  unfold bind at 1, Drive.dump_token at 1. unfold bind at 1, ask at 1.
  rewrite write_file_ok by exact Hw.
  unfold ret at 1. unfold bind at 1, log_call at 1.
  unfold bind, remote_call, ret. cbn [faults set_calls set_fs calls env].
  rewrite <- app_assoc.
  destruct (faults w) as [|[e|] rest]; reflexivity.
Qed.

(** X5: on a machine without a token cache, once the authorization flow
    has returned, its result is pickled into the cache file before
    [build] is called: the file is there whether or not building the
    service then succeeds.  The credential is not checked for validity. *)
Theorem init_first_authorization_persisted
    (creds_path p flow : string) (w : World) (fresh : option Credentials) :
  fs w !! p = None ->
  writable p (fs w) = true ->
  client_secrets (env w) creds_path = Py.Returns flow ->
  local_server (env w) flow = Py.Returns fresh ->
  let run := Drive.__init__ creds_path (Some p) w in
  fs (snd run) = <[p := File (pickle_dumps (env w) fresh)]> (fs w) /\
  calls (snd run) =
    calls w ++ [FromClientSecretsFile creds_path; RunLocalServer flow; Build fresh] /\
  (next_call_ok w = true -> fst run = Ok (Drive.mkAdapter fresh)).
Proof.
  intros Hnone Hw Hs Hl run. subst run.
  rewrite (init_first_run creds_path p flow w fresh Hnone Hw Hs Hl).
  unfold next_call_ok. cbv zeta.
  destruct (faults w) as [|[e|] rest]; cbn [fst snd fs calls set_faults set_calls set_fs].
  all: split; [reflexivity|]; split; [reflexivity|].
  all: intros H; try discriminate H; reflexivity.
Qed.

Lemma init_first_authorization_persisted_witness :
  let w := Scenario.failing Scenario.offline Scenario.fresh in
  let run := Drive.__init__ "credentials.json" (Some Sample.token_path) w in
  fs (snd run) = <[Sample.token_path := File (Sample.bytes "valid")]> (fs w) /\
  calls (snd run) =
    calls w ++ [FromClientSecretsFile "credentials.json";
                RunLocalServer "flow:credentials.json"; Build (Some Sample.granted)] /\
  (next_call_ok w = true -> fst run = Ok (Drive.mkAdapter (Some Sample.granted))).
Proof.
  apply (init_first_authorization_persisted "credentials.json" Sample.token_path
           "flow:credentials.json"
           (Scenario.failing Scenario.offline Scenario.fresh) (Some Sample.granted)).
  - vm_compute. reflexivity.
  - vm_compute. reflexivity.
  - reflexivity.
  - reflexivity.
Defined.

(** X6: the cache round trip.  If the credential obtained by the
    authorization flow is valid and [pickle.load] gives back what
    [pickle.dump] wrote, a second construction with the same token path
    returns the same credential and makes no call but [build]: no second
    authorization, no refresh, and the cache file is left as written. *)
Theorem init_second_construction_reuses_cache
    (creds_path p flow : string) (w : World) (c : Credentials) :
  fs w !! p = None ->
  writable p (fs w) = true ->
  client_secrets (env w) creds_path = Py.Returns flow ->
  local_server (env w) flow = Py.Returns (Some c) ->
  valid c = true ->
  unpickle (env w) (pickle_dumps (env w) (Some c)) = Py.Returns (Some c) ->
  faults w = [] ->
  exists w1 w2,
    Drive.__init__ creds_path (Some p) w = (Ok (Drive.mkAdapter (Some c)), w1) /\
    Drive.__init__ creds_path (Some p) w1 = (Ok (Drive.mkAdapter (Some c)), w2) /\
    fs w2 = fs w1 /\
    calls w2 = calls w1 ++ [Build (Some c)].
Proof.
  intros Hnone Hw Hs Hl Hvalid Hround Hfaults.
  assert (Hp : Py.truthy (Some p) = true).
  { destruct p; [|reflexivity]. exfalso. unfold writable in Hw.
    cbn [String.eqb negb] in Hw. rewrite andb_false_r in Hw. discriminate Hw. }
  rewrite (init_first_run creds_path p flow w (Some c) Hnone Hw Hs Hl).
  cbv zeta. rewrite Hfaults. cbn [tail].
  eexists _, _. split; [reflexivity|].
  rewrite (init_loads_cache creds_path p _ (pickle_dumps (env w) (Some c)) Hp)
    by (cbn [fs set_faults set_fs]; apply lookup_insert_eq).
  cbn [env set_faults set_fs set_calls]. rewrite Hround, Hvalid. cbn [negb].
  unfold bind, ret, log_call, remote_call.
  cbn [faults set_faults set_calls set_fs calls fs tail].
  split; [reflexivity|]. split; reflexivity.
Qed.

Lemma init_second_construction_reuses_cache_witness :
  exists w1 w2,
    Drive.__init__ "credentials.json" (Some Sample.token_path) Scenario.fresh
      = (Ok (Drive.mkAdapter (Some Sample.granted)), w1) /\
    Drive.__init__ "credentials.json" (Some Sample.token_path) w1
      = (Ok (Drive.mkAdapter (Some Sample.granted)), w2) /\
    fs w2 = fs w1 /\
    calls w2 = calls w1 ++ [Build (Some Sample.granted)].
Proof.
  apply (init_second_construction_reuses_cache "credentials.json" Sample.token_path
           "flow:credentials.json" Scenario.fresh Sample.granted).
  - vm_compute. reflexivity.
  - vm_compute. reflexivity.
  - reflexivity.
  - reflexivity.
  - reflexivity.
  - reflexivity.
  - reflexivity.
Defined.

(** ** Requests that create Drive items *)

Section Creation.

Variable error_str : Error.AdapterError -> string.

(** X7: given a dict, [create_directory] sends one create request for a
    folder of the given name, with [parents] set to the single id under
    the key ["parent_id"] when the dict has that key and without
    [parents] otherwise, and returns the id the service answers. *)
Theorem create_directory_with_dict (path : string) (d : gmap string string) (w : World) :
  next_call_ok w = true ->
  Drive.create_directory error_str path (Py.VDict d) w =
    let new_id := drive_new_id (env w) (length (drive_created w)) in
    (Ok (Some new_id),
     set_created (after_call w)
       (drive_created w ++
        [mkCreated new_id
           (mkMetadata path (Some Drive.FOLDER_MIME)
              ((fun parent => [parent]) <$> d !! "parent_id")) None])).
Proof.
  intros Hok. unfold Drive.create_directory.
  unfold bind at 1, Drive.contains at 1, ret at 1.
  destruct (d !! "parent_id") as [parent|] eqn:Hd.
  - replace (bool_decide (is_Some (Some parent))) with true
      by (symmetry; apply bool_decide_eq_true; eauto).
    unfold bind at 1. unfold bind at 1, Drive.getitem at 1. rewrite Hd.
    unfold ret at 1. unfold ret at 1. apply try_except_ok.
    unfold Drive.files_create. rewrite (bind_ok _ _ _ _ _ (remote_call_ok w Hok)).
    reflexivity.
  - replace (bool_decide (is_Some (@None string))) with false
      by (symmetry; apply bool_decide_eq_false; intros [x Hx]; discriminate Hx).
    unfold bind at 1, ret at 1. apply try_except_ok.
    unfold Drive.files_create. rewrite (bind_ok _ _ _ _ _ (remote_call_ok w Hok)).
    reflexivity.
Qed.

(** X8: when the create request of [create_directory] raises, a
    [TransportError] becomes [UnableToCreateDirectory] with its text and an
    [HttpError] becomes [UnableToCreateDirectory] with its reason; every
    other exception leaves [create_directory] as it is (there is no
    catch-all clause), and no item is recorded as created. *)
Theorem create_directory_request_fails
    (path : string) (d : gmap string string) (w : World) (e : Py.Exn)
    (rest : list (option Py.Exn)) :
  faults w = Some e :: rest ->
  Drive.create_directory error_str path (Py.VDict d) w =
    (Raise (if Py.isinstance e Py.TransportError
            then with_location Error.UnableToCreateDirectory path (Py.exn_str e)
            else if Py.isinstance e Py.HttpError
            then with_location Error.UnableToCreateDirectory path (Py.exn_reason e)
            else Native e),
     set_faults w rest).
Proof.
  intros Hf. unfold Drive.create_directory.
  unfold bind at 1, Drive.contains at 1, ret at 1.
  assert (Hreq : forall body,
            Drive.files_create body None w = (Raise (Native e), set_faults w rest)).
  { intros body. unfold Drive.files_create, bind, remote_call. rewrite Hf. reflexivity. }
  destruct (d !! "parent_id") as [parent|] eqn:Hd.
  - replace (bool_decide (is_Some (Some parent))) with true
      by (symmetry; apply bool_decide_eq_true; eauto).
    unfold bind at 1. unfold bind at 1, Drive.getitem at 1. rewrite Hd.
    unfold ret at 1. unfold ret at 1.
    rewrite (try_except_raise _ _ _ _ _ (Hreq _)).
    unfold Drive.is_a, Drive.str_of, Drive.reason_of, raise.
    destruct (Py.isinstance e Py.TransportError); [reflexivity|].
    destruct (Py.isinstance e Py.HttpError); reflexivity.
  - replace (bool_decide (is_Some (@None string))) with false
      by (symmetry; apply bool_decide_eq_false; intros [x Hx]; discriminate Hx).
    unfold bind at 1, ret at 1.
    rewrite (try_except_raise _ _ _ _ _ (Hreq _)).
    unfold Drive.is_a, Drive.str_of, Drive.reason_of, raise.
    destruct (Py.isinstance e Py.TransportError); [reflexivity|].
    destruct (Py.isinstance e Py.HttpError); reflexivity.
Qed.

(** X9: [upload_file] on an existing local file sends one create request
    whose name is the base name of the path, whose media is the content
    of the file and whose [parents] is the given id, unless that id is
    [None] or empty, in which case no parent is sent. *)
Theorem upload_file_creates_item
    (file_path : string) (parent_id : option string) (w : World)
    (content : list Byte.byte) :
  fs w !! file_path = Some (File content) ->
  next_call_ok w = true ->
  Drive.upload_file error_str file_path parent_id w =
    let new_id := drive_new_id (env w) (length (drive_created w)) in
    (Ok (Some new_id),
     set_created (after_call w)
       (drive_created w ++
        [mkCreated new_id
           (mkMetadata (Py.basename file_path) None
              (if Py.truthy parent_id then (fun p => [p]) <$> parent_id else None))
           (Some content)])).
Proof.
  intros Hfile Hok. unfold Drive.upload_file. apply try_except_ok.
  unfold bind at 1, read_file at 1. rewrite Hfile.
  unfold Drive.files_create. rewrite (bind_ok _ _ _ _ _ (remote_call_ok w Hok)).
  reflexivity.
Qed.

(** The handler of [upload_file] turns whatever is raised into
    [UnableToUpload] at the file path. *)
Lemma upload_file_handler (file_path : string) (r : Raised) (w : World) :
  exists message,
    (if Drive.is_a r Py.TransportError
     then raise (with_location Error.UnableToUpload file_path (Drive.str_of error_str r))
     else if Drive.is_a r Py.HttpError
     then raise (with_location Error.UnableToUpload file_path (Drive.reason_of error_str r))
     else if Drive.is_a r Py.FileNotFoundError
     then raise (with_location Error.UnableToUpload file_path "File not found.")
     else if Drive.is_a r Py.PermissionError
     then raise (with_location Error.UnableToUpload file_path (Drive.str_of error_str r))
     else raise (with_location Error.UnableToUpload file_path (Drive.str_of error_str r)))
      w
    = (@Raise (option string) (with_location Error.UnableToUpload file_path message), w).
Proof.
  repeat match goal with |- context [if ?b then _ else _] => destruct b end;
    eexists; reflexivity.
Qed.

(** X10: whatever goes wrong in [upload_file] (reading the file, the
    request), the exception that leaves it is an [UnableToUpload] at the
    file path: no exception of the language or of the vendor library
    crosses it. *)
Theorem upload_file_fails_only_with_unable_to_upload
    (file_path : string) (parent_id : option string) (w : World) :
  match fst (Drive.upload_file error_str file_path parent_id w) with
  | Ok _ => True
  | Raise r => exists message, r = with_location Error.UnableToUpload file_path message
  end.
Proof.
  unfold Drive.upload_file, try_except.
  match goal with |- context [let (_, _) := ?m w in _] => destruct (m w) as [[i|r] w'] end.
  - exact I.
  - destruct (upload_file_handler file_path r w') as (message & ->).
    exists message. reflexivity.
Qed.

(** X11: [upload_file] on a path that names nothing fails with
    [UnableToUpload] and the message ["File not found."] before any
    request is sent: the world is left as it was. *)
Theorem upload_file_missing_file
    (file_path : string) (parent_id : option string) (w : World) :
  fs w !! file_path = None ->
  Drive.upload_file error_str file_path parent_id w
  = (Raise (with_location Error.UnableToUpload file_path "File not found."), w).
Proof.
  intros Hnone. unfold Drive.upload_file, try_except, bind, read_file.
  rewrite Hnone. reflexivity.
Qed.

End Creation.

Lemma create_directory_with_dict_witness :
  Drive.create_directory Sample.error_str "reports" (Py.VDict {[ "parent_id" := "P1" ]})
    Sample.world0
  = (Ok (Some "id0"),
     set_created (after_call Sample.world0)
       [mkCreated "id0"
          (mkMetadata "reports" (Some Drive.FOLDER_MIME) (Some ["P1"])) None]).
Proof.
  rewrite (create_directory_with_dict Sample.error_str "reports" {[ "parent_id" := "P1" ]}
             Sample.world0 eq_refl).
  vm_compute. reflexivity.
Defined.

Lemma create_directory_request_fails_witness :
  Drive.create_directory Sample.error_str "reports" (Py.VDict {[ "parent_id" := "P1" ]})
    (Scenario.failing Scenario.not_found Sample.world0)
  = (Raise (with_location Error.UnableToCreateDirectory "reports" "File not found: R0."),
     set_faults (Scenario.failing Scenario.not_found Sample.world0) []).
Proof.
  apply (create_directory_request_fails Sample.error_str "reports"
           {[ "parent_id" := "P1" ]}
           (Scenario.failing Scenario.not_found Sample.world0) Scenario.not_found []).
  reflexivity.
Defined.

Lemma upload_file_creates_item_witness :
  Drive.upload_file Sample.error_str "photos/b.txt" (Some "P1")
    (set_fs Sample.world0 Sample.photos)
  = (Ok (Some "id0"),
     set_created (after_call (set_fs Sample.world0 Sample.photos))
       [mkCreated "id0" (mkMetadata "b.txt" None (Some ["P1"]))
          (Some (Sample.bytes "y"))]).
Proof.
  apply (upload_file_creates_item Sample.error_str "photos/b.txt" (Some "P1")
           (set_fs Sample.world0 Sample.photos) (Sample.bytes "y")).
  - vm_compute. reflexivity.
  - reflexivity.
Defined.

Lemma upload_file_missing_file_witness :
  Drive.upload_file Sample.error_str "photos/none.txt" (Some "P1")
    (set_fs Sample.world0 Sample.photos)
  = (Raise (with_location Error.UnableToUpload "photos/none.txt" "File not found."),
     set_fs Sample.world0 Sample.photos).
Proof.
  apply (upload_file_missing_file Sample.error_str "photos/none.txt" (Some "P1")
           (set_fs Sample.world0 Sample.photos)).
  vm_compute. reflexivity.
Defined.

(** ** What [upload_folder] sends *)

Lemma creates_ret P {A} (a : A) : creates P (ret a).
Proof. intros w. exists []. simpl. rewrite app_nil_r. split; [reflexivity | constructor]. Qed.

Lemma creates_raise P {A} (r : Raised) : creates P (@raise A r).
Proof. intros w. exists []. simpl. rewrite app_nil_r. split; [reflexivity | constructor]. Qed.

Lemma creates_bind P {A B} (m : M A) (k : A -> M B) :
  creates P m -> (forall a, creates P (k a)) -> creates P (bind m k).
Proof.
  intros Hm Hk w. unfold bind. destruct (Hm w) as (new1 & E1 & F1).
  destruct (m w) as [[a|r] w1]; simpl in E1.
  - destruct (Hk a w1) as (new2 & E2 & F2).
    exists (new1 ++ new2). split; [|apply Forall_app; split; assumption].
    rewrite E2, E1, app_assoc. reflexivity.
  - exists new1. split; assumption.
Qed.

Lemma creates_try_except P {A} (m : M A) (h : Raised -> M A) :
  creates P m -> (forall r, creates P (h r)) -> creates P (try_except m h).
Proof.
  intros Hm Hh w. unfold try_except. destruct (Hm w) as (new1 & E1 & F1).
  destruct (m w) as [[a|r] w1]; simpl in E1.
  - exists new1. split; assumption.
  - destruct (Hh r w1) as (new2 & E2 & F2).
    exists (new1 ++ new2). split; [|apply Forall_app; split; assumption].
    rewrite E2, E1, app_assoc. reflexivity.
Qed.

Lemma creates_for_each P {A} (items : list A) (body : A -> M unit) :
  (forall item, creates P (body item)) -> creates P (for_each items body).
Proof.
  intros Hbody. induction items as [|item items IH]; simpl.
  - apply creates_ret.
  - apply creates_bind; [apply Hbody | intros _; exact IH].
Qed.

Lemma creates_if P {A} (b : bool) (m1 m2 : M A) :
  creates P m1 -> creates P m2 -> creates P (if b then m1 else m2).
Proof. destruct b; auto. Qed.

(** A step that leaves the list of requests alone. *)
Lemma creates_nothing P {A} (m : M A) :
  (forall w, drive_created (snd (m w)) = drive_created w) -> creates P m.
Proof.
  intros H w. exists []. rewrite app_nil_r. split; [apply H | constructor].
Qed.

Lemma creates_files_create (P : Created -> Prop) body media :
  (forall new_id, P (mkCreated new_id body media)) ->
  creates P (Drive.files_create body media).
Proof.
  intros HP w. unfold Drive.files_create, bind, remote_call.
  destruct (faults w) as [|[e|] rest]; simpl.
  - eexists [_]. split; [reflexivity|]. constructor; [apply HP | constructor].
  - exists []. rewrite app_nil_r. split; [reflexivity | constructor].
  - eexists [_]. split; [reflexivity|]. constructor; [apply HP | constructor].
Qed.

Section UploadFolder.

Variable error_str : Error.AdapterError -> string.

Lemma creates_handler_raise P {A} (b1 b2 : bool) (r1 r2 r3 : Raised) :
  creates P (if b1 then @raise A r1 else if b2 then raise r2 else raise r3).
Proof. destruct b1, b2; apply creates_raise. Qed.

Lemma creates_create_directory_as_value (path : string) (parent_id : option string) :
  creates folder_without_parents
    (Drive.create_directory error_str path (Drive.as_value parent_id)).
Proof.
  unfold Drive.create_directory, Drive.as_value.
  destruct parent_id as [s|]; unfold Drive.contains, Drive.getitem.
  - intros w. unfold bind at 1, ret at 1.
    destruct (Py.str_contains "parent_id" s).
    + exists []. rewrite app_nil_r. split; [reflexivity | constructor].
    + unfold bind at 1, ret at 1. revert w. apply creates_try_except.
      * apply creates_files_create. intros new_id _. reflexivity.
      * intros r. apply creates_handler_raise.
  - apply creates_nothing. intros w. reflexivity.
Qed.

Lemma creates_upload_file (file_path : string) (parent_id : option string) :
  creates folder_without_parents (Drive.upload_file error_str file_path parent_id).
Proof.
  unfold Drive.upload_file. apply creates_try_except.
  - apply creates_bind.
    + apply creates_nothing. intros w. unfold read_file.
      destruct (fs w !! file_path) as [[|c]|]; reflexivity.
    + intros media. apply creates_files_create. intros new_id H. discriminate H.
  - intros r.
    repeat match goal with |- context [if ?b then _ else _] => destruct b end;
      apply creates_raise.
Qed.

(** X12: whatever the local tree, the parent id and the outcome of the
    requests, [upload_folder] only appends create requests, and no
    request it sends for a folder names a parent. *)
Theorem upload_folder_never_sends_folder_parents
    (depth : nat) (folder_path : string) (parent_id : option string) (w : World) :
  exists new,
    drive_created (snd (Drive.upload_folder error_str depth folder_path parent_id w))
      = drive_created w ++ new /\
    Forall folder_without_parents new.
Proof.
  revert folder_path parent_id w.
  change (forall folder_path parent_id,
            creates folder_without_parents
              (Drive.upload_folder error_str depth folder_path parent_id)).
  induction depth as [|depth IH]; intros folder_path parent_id; simpl.
  - apply creates_raise.
  - apply creates_bind.
    + apply creates_try_except; [apply creates_create_directory_as_value|].
      intros r.
      repeat match goal with |- context [if ?b then _ else _] => destruct b end;
        apply creates_raise.
    + intros folder_id. apply creates_bind.
      * apply creates_nothing. intros w. unfold listdir.
        destruct (fs w !! folder_path) as [[|c]|]; reflexivity.
      * intros items. apply creates_for_each. intros item.
        apply creates_bind; [apply creates_nothing; reflexivity|].
        intros is_file. apply creates_if.
        -- apply creates_bind; [apply creates_upload_file | intros; apply creates_ret].
        -- apply creates_bind; [apply creates_nothing; reflexivity|].
           intros is_dir. apply creates_if; [apply IH | apply creates_ret].
Qed.

(** X13: [upload_folder] called with a parent id (a string that does
    not contain ["parent_id"]) on a local path that names nothing, when
    the create request succeeds: the remote folder is created first,
    without parents (the [try] block of lines 124-132 does not touch the
    disk), and then [os.listdir] fails, outside the [try] block, with the
    interpreter's [FileNotFoundError]. *)
Theorem upload_folder_missing_local_folder
    (depth : nat) (folder_path parent : string) (w : World) :
  Py.str_contains "parent_id" parent = false ->
  next_call_ok w = true ->
  fs w !! folder_path = None ->
  exists e,
    Py.exn_class e = Py.FileNotFoundError /\
    Drive.upload_folder error_str (S depth) folder_path (Some parent) w =
      (Raise (Native e),
       set_created (after_call w)
         (drive_created w ++
          [mkCreated (drive_new_id (env w) (length (drive_created w)))
             (mkMetadata (Py.basename folder_path) (Some Drive.FOLDER_MIME) None) None])).
Proof.
  intros Hs Hok Hnone. eexists. split; [|].
  2:{ simpl. unfold bind at 1.
      rewrite (try_except_ok _ _ _ _ _
                 (create_directory_given_str error_str (Py.basename folder_path) parent w Hok Hs)).
      cbv zeta. unfold bind at 1, listdir at 1.
      cbn [fs set_created after_call set_faults]. rewrite Hnone. reflexivity. }
  reflexivity.
Qed.

End UploadFolder.

Lemma upload_folder_missing_local_folder_witness :
  exists e,
    Py.exn_class e = Py.FileNotFoundError /\
    Drive.upload_folder Sample.error_str 1 "albums" (Some "P1") Sample.world0 =
      (Raise (Native e),
       set_created (after_call Sample.world0)
         [mkCreated "id0" (mkMetadata "albums" (Some Drive.FOLDER_MIME) None) None]).
Proof.
  apply (upload_folder_missing_local_folder Sample.error_str 0 "albums" "P1" Sample.world0).
  - reflexivity.
  - reflexivity.
  - vm_compute. reflexivity.
Defined.

(** ** Numbers on the console: [int] reads back what [pretty] prints *)

Lemma digit_char (d : N) :
  (d < 10)%N ->
  Py.is_digit (pretty_N_char d) = true /\
  Py.digit_value (pretty_N_char d) = Z.of_N d.
Proof.
  intros H.
  assert (d = 0 \/ d = 1 \/ d = 2 \/ d = 3 \/ d = 4 \/ d = 5 \/ d = 6 \/ d = 7 \/
          d = 8 \/ d = 9)%N as Hd by lia.
  repeat (destruct Hd as [->|Hd]); try subst d; split; reflexivity.
Qed.

Lemma digit_not_space_nor_sign (c : ascii) :
  Py.is_digit c = true ->
  Py.is_space c = false /\ c <> "-"%char /\ c <> "+"%char.
Proof.
  destruct c as [[] [] [] [] [] [] [] []]; intros H; try discriminate H;
    (split; [reflexivity|]); split; discriminate.
Qed.

Lemma chars_go (x : N) : forall s,
  Forall (fun c => Py.is_digit c = true) (Py.chars s) ->
  Forall (fun c => Py.is_digit c = true) (Py.chars (pretty_N_go x s)).
Proof.
  induction (N.lt_wf_0 x) as [x _ IH]. intros s Hs.
  assert (x = 0 \/ 0 < x)%N as [->|Hx] by lia.
  - rewrite pretty_N_go_0. exact Hs.
  - rewrite pretty_N_go_step by exact Hx. apply IH.
    + apply N.div_lt; lia.
    + simpl. constructor; [|exact Hs].
      apply digit_char, N.mod_lt. lia.
Qed.

Lemma parse_go (x : N) : forall s b,
  (0 < x)%N ->
  Py.parse_digits 0 b (Py.chars (pretty_N_go x s))
  = Py.parse_digits (Z.of_N x) true (Py.chars s).
Proof.
  induction (N.lt_wf_0 x) as [x _ IH]. intros s b Hx.
  rewrite pretty_N_go_step by exact Hx.
  destruct (digit_char (x mod 10)) as [Hd Hv]; [apply N.mod_lt; lia|].
  destruct (N.eq_0_gt_0_cases (x / 10)) as [H0|Hpos].
  - rewrite H0, pretty_N_go_0. simpl. rewrite Hd, Hv.
    f_equal. pose proof (N.div_mod x 10 ltac:(lia)). lia.
  - rewrite IH; [|apply N.div_lt; lia | exact Hpos].
    simpl. rewrite Hd, Hv. f_equal.
    pose proof (N.div_mod x 10 ltac:(lia)). lia.
Qed.

Lemma strip_digits (l : list ascii) :
  Forall (fun c => Py.is_digit c = true) l -> Py.strip l = l.
Proof.
  intros H. unfold Py.strip.
  assert (Hdrop : forall l', Forall (fun c => Py.is_digit c = true) l' ->
                             Py.drop_while Py.is_space l' = l').
  { intros [|c l'] Hl; [reflexivity|]. simpl.
    apply Forall_cons in Hl as [Hc _].
    destruct (digit_not_space_nor_sign c Hc) as [-> _]. reflexivity. }
  rewrite (Hdrop l H).
  rewrite (Hdrop (rev l)) by (apply Forall_rev, H).
  apply rev_involutive.
Qed.

(** [int] reads the decimal numeral of [n] back as [n]. *)
Lemma int_pretty (n : nat) : Py.int (pretty n) = Some (Z.of_nat n).
Proof.
  unfold pretty, pretty_nat, pretty, pretty_N.
  destruct (decide (N.of_nat n = 0%N)) as [H0|Hne].
  - replace n with 0%nat by lia. reflexivity.
  - unfold Py.int.
    assert (Hall : Forall (fun c => Py.is_digit c = true)
                     (Py.chars (pretty_N_go (N.of_nat n) ""))).
    { apply chars_go. constructor. }
    rewrite strip_digits by exact Hall.
    assert (Hparse : Py.parse_digits 0 false (Py.chars (pretty_N_go (N.of_nat n) ""))
                     = Some (Z.of_nat n)).
    { rewrite parse_go by lia. simpl. f_equal. lia. }
    destruct (Py.chars (pretty_N_go (N.of_nat n) "")) as [|c l] eqn:Hc.
    + exact Hparse.
    + apply Forall_cons in Hall as [Hd _].
      destruct (digit_not_space_nor_sign c Hd) as (_ & Hm & Hp).
      destruct c as [[] [] [] [] [] [] [] []]; try exact Hparse;
        exfalso; (apply Hm; reflexivity) || (apply Hp; reflexivity).
Qed.

(** ** More on the resolver *)

Section ResolverMore.

Variable error_str : Error.AdapterError -> string.

(** X14: the numbers of the listing can be typed back.  With N > 1
    matches, each with the keys of the listing, the line printed for the
    item at position [i] of the answer is the [i]-th after the header and
    reads "[i + 1]. Name: <name>, Type: <mimeType>, Created:
    <createdTime>, Size: <size or Unknown>, Owners: <name (email), ...>";
    entering the numeral of [i + 1] makes the resolver return this very
    item. *)
Theorem resolver_number_shown_selects_item
    (resource_name : string) (w : World) (i : nat) (file : DriveFile)
    (name mime created : string) (rest : list string) :
  next_call_ok w = true ->
  (1 < length (matches w resource_name))%nat ->
  forallb listable (matches w resource_name) = true ->
  matches w resource_name !! i = Some file ->
  f_name file = Some name ->
  f_mimeType file = Some mime ->
  f_createdTime file = Some created ->
  stdin w = pretty (i + 1)%nat :: rest ->
  fst (Drive.get_resource_by_name error_str resource_name w) = Ok file /\
  stdout (snd (Drive.get_resource_by_name error_str resource_name w))
    !! (length (stdout w) + 1 + i)%nat
  = Some (pretty (i + 1)%nat +:+ ". Name: " +:+ name +:+ ", Type: " +:+ mime +:+
          ", Created: " +:+ created +:+
          ", Size: " +:+ default "Unknown" (f_size file) +:+
          ", Owners: " +:+
          Py.str_join ", " (map owner_shown (default [] (f_owners file)))).
Proof.
  intros Hok Hlen Hkeys Hfile Hname Hmime Hcreated Hin.
  rewrite (resolver_prompts error_str resource_name w _ rest Hok Hlen Hkeys Hin).
  cbv zeta. rewrite int_pretty.
  pose proof (lookup_lt_Some _ _ _ Hfile) as Hi.
  replace ((1 <=? Z.of_nat (i + 1)) &&
           (Z.of_nat (i + 1) <=? Z.of_nat (length (matches w resource_name))))%Z
    with true by (symmetry; apply andb_true_iff; split; apply Z.leb_le; lia).
  replace (Z.to_nat (Z.of_nat (i + 1) - 1)) with i by lia.
  rewrite Hfile. split; [reflexivity|].
  cbn [snd stdout set_stdin set_stdout]. unfold listing.
  rewrite lookup_app_r by lia.
  replace (length (stdout w) + 1 + i - length (stdout w))%nat with (S i) by lia.
  rewrite lookup_cons. cbv beta iota.
  rewrite lookup_app_l by (rewrite length_imap; exact Hi).
  rewrite list_lookup_imap, Hfile. unfold listing_line.
  cbn [fmap option_fmap option_map]. rewrite Hname, Hmime, Hcreated. reflexivity.
Qed.

(** X15: when the query request raises, the resolver fails with
    [UnableToDownload] at the supplied name, carrying the reason of an
    [HttpError] and the text of any other exception; nothing is printed
    and nothing is read from the console. *)
Theorem resolver_query_fails
    (resource_name : string) (w : World) (e : Py.Exn) (rest : list (option Py.Exn)) :
  faults w = Some e :: rest ->
  Drive.get_resource_by_name error_str resource_name w =
    (Raise (with_location Error.UnableToDownload resource_name
              (if Py.isinstance e Py.TransportError then Py.exn_str e
               else if Py.isinstance e Py.HttpError then Py.exn_reason e
               else Py.exn_str e)),
     set_faults w rest).
Proof.
  intros Hf. unfold Drive.get_resource_by_name.
  unfold bind at 1, try_except at 1, bind at 1, Drive.files_list at 1, bind at 1,
    remote_call at 1.
  rewrite Hf. unfold Drive.unable_to_download, Drive.is_a, Drive.str_of, Drive.reason_of, raise.
  destruct (Py.isinstance e Py.TransportError); [reflexivity|].
  destruct (Py.isinstance e Py.HttpError); reflexivity.
Qed.

(** X16: with N > 1 matches, each with the keys of the listing, and no
    line left to read (input closed), the header, one line per match and
    the prompt are printed and the [EOFError] of [input] leaves the
    resolver as it is, like the [ValueError] of [int]. *)
Theorem resolver_end_of_input
    (resource_name : string) (w : World) :
  next_call_ok w = true ->
  (1 < length (matches w resource_name))%nat ->
  forallb listable (matches w resource_name) = true ->
  stdin w = [] ->
  exists e,
    Py.exn_class e = Py.EOFError /\
    Drive.get_resource_by_name error_str resource_name w =
      (Raise (Native e),
       set_stdout (after_call w)
         (stdout w ++ "Multiple files/folders found:" ::
            imap (fun i file => listing_line (i + 1) file) (matches w resource_name) ++
            [Drive.select_prompt (length (matches w resource_name))])).
Proof.
  intros Hok Hlen Hkeys Hin. eexists. split; [|].
  2:{ unfold Drive.get_resource_by_name.
      rewrite (bind_ok _ _ _ _ _ (resolver_query_ok error_str resource_name w Hok)).
      destruct (matches w resource_name) as [|f1 [|f2 files]] eqn:Hm;
        [simpl in Hlen; lia | simpl in Hlen; lia |].
      unfold bind at 1, print at 1.
      unfold bind at 1. rewrite print_listing by exact Hkeys.
      unfold bind at 1, input at 1. cbn [stdin set_stdout stdout after_call set_faults].
      rewrite Hin. unfold native.
      unfold after_call, set_faults, set_stdout.
      cbn [env drive_created calls faults fs stdout stdin].
      rewrite <- !app_assoc. reflexivity. }
  reflexivity.
Qed.

End ResolverMore.

Lemma resolver_number_shown_selects_item_witness :
  let w := set_stdin Sample.world0 ["2"] in
  fst (Drive.get_resource_by_name Sample.error_str "report" w) = Ok Sample.report2 /\
  stdout (snd (Drive.get_resource_by_name Sample.error_str "report" w))
    !! (length (stdout w) + 1 + 1)%nat
  = Some ("2. Name: report, Type: application/vnd.google-apps.folder, " +:+
          "Created: 2024-03-01T00:00:00Z, Size: Unknown, " +:+
          "Owners: Bob (bob@example.org), Cy (cy@example.org)").
Proof.
  apply (resolver_number_shown_selects_item Sample.error_str "report"
           (set_stdin Sample.world0 ["2"]) 1 Sample.report2
           "report" "application/vnd.google-apps.folder" "2024-03-01T00:00:00Z" []).
  - reflexivity.
  - simpl. lia.
  - reflexivity.
  - reflexivity.
  - reflexivity.
  - reflexivity.
  - reflexivity.
  - reflexivity.
Defined.

Lemma resolver_query_fails_witness :
  Drive.get_resource_by_name Sample.error_str "report"
    (Scenario.failing Scenario.not_found Sample.world0)
  = (Raise (with_location Error.UnableToDownload "report" "File not found: R0."),
     set_faults (Scenario.failing Scenario.not_found Sample.world0) []).
Proof.
  apply (resolver_query_fails Sample.error_str "report"
           (Scenario.failing Scenario.not_found Sample.world0) Scenario.not_found []).
  reflexivity.
Defined.

Lemma resolver_end_of_input_witness :
  exists e,
    Py.exn_class e = Py.EOFError /\
    Drive.get_resource_by_name Sample.error_str "report" Sample.world0 =
      (Raise (Native e),
       set_stdout (after_call Sample.world0)
         (stdout Sample.world0 ++ "Multiple files/folders found:" ::
            imap (fun i file => listing_line (i + 1) file)
              (matches Sample.world0 "report") ++
            [Drive.select_prompt (length (matches Sample.world0 "report"))])).
Proof.
  apply (resolver_end_of_input Sample.error_str "report" Sample.world0).
  - reflexivity.
  - simpl. lia.
  - reflexivity.
  - reflexivity.
Defined.

(** ** Downloads from Drive *)

Lemma set_faults_same (w : World) (f : list (option Py.Exn)) :
  faults w = f -> set_faults w f = w.
Proof. intros <-. destruct w; reflexivity. Qed.

Lemma makedirs_ok (path : string) (w : World) (m : gmap string FsEntry) :
  makedirs_to path (fs w) m -> makedirs path w = (Ok tt, set_fs w m).
Proof.
  intros [Hne Hm]. unfold makedirs.
  destruct (String.eqb_spec path ""); [contradiction|]. now rewrite Hm.
Qed.

(** Without a failing request the chunk loop returns the chunks in
    order, appended to what the buffer held. *)
Lemma next_chunks_no_fault (chunks : list (list Byte.byte)) : forall fh w,
  faults w = [] ->
  Drive.next_chunks chunks fh w = (Ok (fh ++ concat chunks), w).
Proof.
  assert (Hcall : forall w, faults w = [] -> remote_call w = (Ok tt, w)).
  { intros w Hw. unfold remote_call. rewrite Hw. cbn [tail].
    now rewrite (set_faults_same w [] Hw). }
  induction chunks as [|chunk chunks IH]; intros fh w Hw.
  - simpl. unfold bind. rewrite (Hcall w Hw). unfold ret. now rewrite app_nil_r.
  - destruct chunks as [|chunk' chunks].
    + simpl. unfold bind. rewrite (Hcall w Hw). unfold ret. now rewrite app_nil_r.
    + change (Drive.next_chunks (chunk :: chunk' :: chunks) fh w)
        with ((remote_call ;;; Drive.next_chunks (chunk' :: chunks) (fh ++ chunk)) w).
      unfold bind. rewrite (Hcall w Hw). rewrite (IH (fh ++ chunk) w Hw).
      rewrite <- app_assoc. reflexivity.
Qed.

(** A request that fails, after [k] that did not, stops the loop. *)
Lemma next_chunks_fault (chunks : list (list Byte.byte)) : forall k fh w e rest,
  faults w = replicate k None ++ Some e :: rest ->
  (k < Nat.max 1 (length chunks))%nat ->
  Drive.next_chunks chunks fh w = (Raise (Native e), set_faults w rest).
Proof.
  induction chunks as [|chunk chunks IH]; intros k fh w e rest Hw Hk.
  - simpl in Hk. assert (k = 0%nat) as -> by lia. simpl in Hw.
    simpl. unfold bind, remote_call. rewrite Hw. reflexivity.
  - destruct chunks as [|chunk' chunks].
    + simpl in Hk. assert (k = 0%nat) as -> by lia. simpl in Hw.
      simpl. unfold bind, remote_call. rewrite Hw. reflexivity.
    + change (Drive.next_chunks (chunk :: chunk' :: chunks) fh w)
        with ((remote_call ;;; Drive.next_chunks (chunk' :: chunks) (fh ++ chunk)) w).
      unfold bind at 1, remote_call at 1. rewrite Hw.
      destruct k as [|k]; simpl replicate; cbn [app tail].
      * reflexivity.
      * rewrite (IH k (fh ++ chunk) (set_faults w (replicate k None ++ Some e :: rest)) e rest).
        -- reflexivity.
        -- reflexivity.
        -- simpl in Hk |- *. lia.
Qed.

Section Downloads.

Variable error_str : Error.AdapterError -> string.

Lemma unable_to_download_native {A} (location : string) (e : Py.Exn) (w : World) :
  @Drive.unable_to_download error_str A location (Native e) w
  = (Raise (with_location Error.UnableToDownload location (download_failure_text e)), w).
Proof.
  unfold Drive.unable_to_download, download_failure_text, Drive.is_a, Drive.str_of,
    Drive.reason_of, raise.
  destruct (Py.isinstance e Py.TransportError); [reflexivity|].
  destruct (Py.isinstance e Py.HttpError); reflexivity.
Qed.

Lemma unable_to_download_any {A} (location : string) (r : Raised) (w : World) :
  exists message,
    @Drive.unable_to_download error_str A location r w
    = (Raise (with_location Error.UnableToDownload location message), w).
Proof.
  unfold Drive.unable_to_download, raise.
  destruct (Drive.is_a r Py.TransportError); [eexists; reflexivity|].
  destruct (Drive.is_a r Py.HttpError); eexists; reflexivity.
Qed.

(** X17: when no request fails and the destination can be created and
    written, [download_file] leaves at [download_path/file_name] the
    chunks served for the file, concatenated in the order served, and
    prints ["File Downloaded"]. *)
Theorem download_file_writes_chunks_in_order
    (file_id file_name download_path : string) (w : World) (m : gmap string FsEntry) :
  faults w = [] ->
  makedirs_to download_path (fs w) m ->
  writable (Py.join download_path file_name) m = true ->
  Drive.download_file error_str file_id file_name download_path w =
    (Ok tt,
     set_stdout
       (set_fs w (<[Py.join download_path file_name :=
                      File (concat (drive_media (env w) file_id))]> m))
       (stdout w ++ ["File Downloaded"])).
Proof.
  intros Hf Hm Hw. unfold Drive.download_file.
  unfold bind at 1, try_except at 1, bind at 1, ask at 1.
  unfold bind at 1. rewrite (next_chunks_no_fault _ [] w Hf).
  unfold bind at 1. rewrite (makedirs_ok download_path w m Hm).
  rewrite write_file_ok by exact Hw. reflexivity.
Qed.

(** X18: whatever goes wrong in [download_file] (a chunk request, the
    creation of the directory, the write), the exception that leaves it
    is an [UnableToDownload] at the file name. *)
Theorem download_file_fails_only_with_unable_to_download
    (file_id file_name download_path : string) (w : World) :
  match fst (Drive.download_file error_str file_id file_name download_path w) with
  | Ok _ => True
  | Raise r => exists message, r = with_location Error.UnableToDownload file_name message
  end.
Proof.
  unfold Drive.download_file. unfold bind at 1, try_except at 1.
  match goal with |- context [let (_, _) := ?m w in _] => destruct (m w) as [[[]|r] w'] end.
  - exact I.
  - destruct (@unable_to_download_any unit file_name r w') as (message & ->).
    exists message. reflexivity.
Qed.

(** A chunk request that fails ends [download_file]. *)
Lemma download_file_chunk_failure_aux
    (file_id file_name download_path : string) (w : World)
    (k : nat) (e : Py.Exn) (rest : list (option Py.Exn)) :
  faults w = replicate k None ++ Some e :: rest ->
  (k < Nat.max 1 (length (drive_media (env w) file_id)))%nat ->
  Drive.download_file error_str file_id file_name download_path w =
    (Raise (with_location Error.UnableToDownload file_name (download_failure_text e)),
     set_faults w rest).
Proof.
  intros Hf Hk. unfold Drive.download_file.
  unfold bind at 1, try_except at 1, bind at 1, ask at 1.
  unfold bind at 1. rewrite (next_chunks_fault _ k [] w e rest Hf Hk).
  rewrite unable_to_download_native. reflexivity.
Qed.

(** The listing request of [download_folder], when it is served. *)
Lemma folder_listing_ok (folder_id folder_name : string) (w : World) :
  next_call_ok w = true ->
  try_except (Drive.files_list (Drive.parents_query folder_id))
    (Drive.unable_to_download error_str folder_name) w
  = (Ok (drive_list (env w) (Drive.parents_query folder_id)), after_call w).
Proof. intros Hok. apply try_except_ok, files_list_ok, Hok. Qed.

(** [download_folder] on a folder without children. *)
Lemma download_folder_empty_aux
    (depth : nat) (folder_id folder_name download_path : string) (w : World)
    (m : gmap string FsEntry) :
  next_call_ok w = true ->
  makedirs_to (Py.join download_path folder_name) (fs w) m ->
  Drive.get_files (drive_list (env w) (Drive.parents_query folder_id)) = [] ->
  Drive.download_folder error_str (S depth) folder_id folder_name download_path w =
    (Ok tt, set_stdout (after_call (set_fs w m)) (stdout w ++ ["Folder downloaded"])).
Proof.
  intros Hok Hm Hempty. simpl.
  unfold bind at 1. rewrite (makedirs_ok _ w m Hm).
  unfold bind at 1.
  rewrite (folder_listing_ok folder_id folder_name (set_fs w m) Hok).
  cbn [env set_fs]. rewrite Hempty. reflexivity.
Qed.

(** X19: a chunk request that fails, after any number that did not, ends
    [download_file] with [UnableToDownload] at the file name; the chunks
    received so far are dropped: no directory is created, no file is
    written and nothing is printed. *)
Theorem download_file_chunk_failure_writes_nothing
    (file_id file_name download_path : string) (w : World)
    (k : nat) (e : Py.Exn) (rest : list (option Py.Exn)) :
  faults w = replicate k None ++ Some e :: rest ->
  (k < Nat.max 1 (length (drive_media (env w) file_id)))%nat ->
  Drive.download_file error_str file_id file_name download_path w =
    (Raise (with_location Error.UnableToDownload file_name (download_failure_text e)),
     set_faults w rest).
Proof. apply download_file_chunk_failure_aux. Qed.

(** X20: for a folder whose listing is empty (or lacks the key
    ["files"]), [download_folder] creates the directory
    [download_path/folder_name], sends the one listing request and prints
    ["Folder downloaded"]. *)
Theorem download_folder_empty
    (depth : nat) (folder_id folder_name download_path : string) (w : World)
    (m : gmap string FsEntry) :
  next_call_ok w = true ->
  makedirs_to (Py.join download_path folder_name) (fs w) m ->
  Drive.get_files (drive_list (env w) (Drive.parents_query folder_id)) = [] ->
  Drive.download_folder error_str (S depth) folder_id folder_name download_path w =
    (Ok tt, set_stdout (after_call (set_fs w m)) (stdout w ++ ["Folder downloaded"])).
Proof. apply download_folder_empty_aux. Qed.

(** X21: when the listing request of [download_folder] raises, the
    failure is an [UnableToDownload] at the folder name, and the local
    directory for the folder has already been created. *)
Theorem download_folder_listing_fails
    (depth : nat) (folder_id folder_name download_path : string) (w : World)
    (m : gmap string FsEntry) (e : Py.Exn) (rest : list (option Py.Exn)) :
  faults w = Some e :: rest ->
  makedirs_to (Py.join download_path folder_name) (fs w) m ->
  Drive.download_folder error_str (S depth) folder_id folder_name download_path w =
    (Raise (with_location Error.UnableToDownload folder_name (download_failure_text e)),
     set_faults (set_fs w m) rest).
Proof.
  intros Hf Hm. simpl.
  unfold bind at 1. rewrite (makedirs_ok _ w m Hm).
  unfold bind at 1, try_except at 1, Drive.files_list at 1, bind at 1, remote_call at 1.
  cbn [faults set_fs]. rewrite Hf.
  rewrite unable_to_download_native. reflexivity.
Qed.

(** One level of [download_folder], as lines 221-243 read. *)
Lemma download_folder_step
    (depth : nat) (folder_id folder_name download_path : string) (w : World) :
  Drive.download_folder error_str (S depth) folder_id folder_name download_path w =
    (let here := Py.join download_path folder_name in
     makedirs here ;;;
     results <- try_except (Drive.files_list (Drive.parents_query folder_id))
                  (Drive.unable_to_download error_str folder_name) ;;
     for_each (Drive.get_files results) (fun item =>
       mime_type <- Drive.index "mimeType" (f_mimeType item) ;;
       if String.eqb mime_type Drive.FOLDER_MIME
       then
         name <- Drive.index "name" (f_name item) ;;
         makedirs (Py.join here name) ;;;
         item_id <- Drive.index "id" (f_id item) ;;
         item_name <- Drive.index "name" (f_name item) ;;
         Drive.download_folder error_str depth item_id item_name (Py.join here name)
       else
         item_id <- Drive.index "id" (f_id item) ;;
         item_name <- Drive.index "name" (f_name item) ;;
         Drive.download_file error_str item_id item_name here) ;;;
     print "Folder downloaded") w.
Proof. reflexivity. Qed.

(** X22: the path a subfolder is downloaded to.  For a folder whose only
    child is an empty folder [child] (an item with a [mimeType] of
    folder, a [name] and an [id]), three directories are made in turn:
    [download_path/folder_name], then that path extended by the child's
    name, then that path extended by the child's name once more, which
    is where the child's own content would go. *)
Theorem download_folder_subfolder_path
    (depth : nat) (folder_id folder_name download_path : string) (w : World)
    (child : DriveFile) (child_id child_name : string)
    (m1 m2 m3 : gmap string FsEntry) :
  let here := Py.join download_path folder_name in
  let new_folder_path := Py.join here child_name in
  faults w = [] ->
  Drive.get_files (drive_list (env w) (Drive.parents_query folder_id)) = [child] ->
  f_mimeType child = Some Drive.FOLDER_MIME ->
  f_name child = Some child_name ->
  f_id child = Some child_id ->
  Drive.get_files (drive_list (env w) (Drive.parents_query child_id)) = [] ->
  makedirs_to here (fs w) m1 ->
  makedirs_to new_folder_path m1 m2 ->
  makedirs_to (Py.join new_folder_path child_name) m2 m3 ->
  Drive.download_folder error_str (S (S depth)) folder_id folder_name download_path w =
    (Ok tt,
     set_stdout (set_fs w m3)
       (stdout w ++ ["Folder downloaded"; "Folder downloaded"])).
Proof.
  intros here new_folder_path Hf Hlist Hmime Hname Hid Hempty H1 H2 H3.
  subst new_folder_path.
  assert (Hcalls : forall m, after_call (set_fs w m) = set_fs w m).
  { intros m. unfold after_call. cbn [faults set_fs]. rewrite Hf. cbn [tail].
    apply set_faults_same. cbn [faults set_fs]. exact Hf. }
  assert (Hok : forall m, next_call_ok (set_fs w m) = true).
  { intros m. unfold next_call_ok. cbn [faults set_fs]. now rewrite Hf. }
  rewrite download_folder_step. cbv zeta. fold here.
  unfold bind at 1. rewrite (makedirs_ok _ w m1 H1).
  unfold bind at 1.
  rewrite (folder_listing_ok folder_id folder_name (set_fs w m1) (Hok m1)), Hcalls.
  cbn [env set_fs]. rewrite Hlist. cbn [for_each].
  rewrite Hmime, Hname, Hid. unfold Drive.index.
  unfold bind at 1. unfold bind at 1. unfold bind at 1. unfold ret at 1.
  rewrite String.eqb_refl.
  unfold bind at 1. unfold ret at 1. unfold bind at 1.
  rewrite (makedirs_ok (Py.join here child_name) (set_fs w m1) m2) by exact H2.
  unfold bind at 1. unfold ret at 1. unfold bind at 1. unfold ret at 1.
  rewrite (download_folder_empty_aux depth child_id child_name
             (Py.join here child_name)
             (set_fs (set_fs w m1) m2) m3 (Hok m2) H3 Hempty).
  unfold ret, print, after_call, set_stdout, set_fs, set_faults.
  cbn [env drive_created calls faults fs stdout stdin].
  rewrite Hf. cbn [tail]. rewrite <- app_assoc.
  destruct w; simpl in *; subst; reflexivity.
Qed.

(** X23: [download_folder] stops at the first failure.  When the first
    child is a file (an item with a [mimeType] other than folder, an
    [id] and a [name]) and one of its chunk requests fails, the
    exception is [UnableToDownload] at the name of that file, the
    remaining children are not requested (the rest of the fault script is
    untouched) and ["Folder downloaded"] is not printed. *)
Theorem download_folder_stops_at_first_failure
    (depth : nat) (folder_id folder_name download_path : string) (w : World)
    (item : DriveFile) (item_id item_name mime : string)
    (others : list DriveFile) (m : gmap string FsEntry)
    (k : nat) (e : Py.Exn) (rest : list (option Py.Exn)) :
  makedirs_to (Py.join download_path folder_name) (fs w) m ->
  Drive.get_files (drive_list (env w) (Drive.parents_query folder_id)) = item :: others ->
  f_mimeType item = Some mime ->
  String.eqb mime Drive.FOLDER_MIME = false ->
  f_id item = Some item_id ->
  f_name item = Some item_name ->
  faults w = None :: replicate k None ++ Some e :: rest ->
  (k < Nat.max 1 (length (drive_media (env w) item_id)))%nat ->
  Drive.download_folder error_str (S depth) folder_id folder_name download_path w =
    (Raise (with_location Error.UnableToDownload item_name (download_failure_text e)),
     set_faults (set_fs w m) rest).
Proof.
  intros Hm Hlist Hmime Hfile Hid Hname Hf Hk.
  rewrite download_folder_step. cbv zeta.
  unfold bind at 1. rewrite (makedirs_ok _ w m Hm).
  unfold bind at 1.
  rewrite (folder_listing_ok folder_id folder_name (set_fs w m))
    by (unfold next_call_ok; cbn [faults set_fs]; now rewrite Hf).
  cbn [env set_fs after_call]. rewrite Hlist. cbn [for_each].
  rewrite Hmime, Hid, Hname. unfold Drive.index.
  unfold bind at 1. unfold bind at 1. unfold bind at 1. unfold ret at 1.
  rewrite Hfile.
  unfold bind at 1. unfold ret at 1. unfold bind at 1. unfold ret at 1.
  rewrite (download_file_chunk_failure_aux item_id item_name
             (Py.join download_path folder_name) _ k e rest).
  - unfold after_call, set_faults, set_fs. cbn [env drive_created calls faults fs stdout stdin].
    reflexivity.
  - unfold after_call. cbn [faults set_faults set_fs]. rewrite Hf. reflexivity.
  - exact Hk.
Qed.

End Downloads.

Lemma download_file_writes_chunks_in_order_witness :
  Drive.download_file Sample.error_str "F1" "f.txt" "dest" Sample.world0 =
    (Ok tt,
     set_stdout
       (set_fs Sample.world0
          (<[Py.join "dest" "f.txt" := File (concat (drive_media (env Sample.world0) "F1"))]>
             {[ "dest" := Dir ]}))
       (stdout Sample.world0 ++ ["File Downloaded"])) /\
  Drive.download_file Sample.error_str "F1" "f.txt" "/" Sample.world0 =
    (Ok tt,
     set_stdout
       (set_fs Sample.world0
          (<["/f.txt" := File (concat (drive_media (env Sample.world0) "F1"))]>
             (fs Sample.world0)))
       (stdout Sample.world0 ++ ["File Downloaded"])).
Proof.
  split.
  - apply (download_file_writes_chunks_in_order Sample.error_str "F1" "f.txt" "dest"
             Sample.world0 {[ "dest" := Dir ]}).
    + reflexivity.
    + split; [discriminate | vm_compute; reflexivity].
    + vm_compute. reflexivity.
  - apply (download_file_writes_chunks_in_order Sample.error_str "F1" "f.txt" "/"
             Sample.world0 (fs Sample.world0)).
    + reflexivity.
    + split; [discriminate | reflexivity].
    + vm_compute. reflexivity.
Defined.

Lemma download_file_chunk_failure_writes_nothing_witness :
  Drive.download_file Sample.error_str "F1" "f.txt" "dest"
    (set_faults Sample.world0 [None; Some Scenario.offline]) =
    (Raise (with_location Error.UnableToDownload "f.txt"
              (download_failure_text Scenario.offline)),
     set_faults (set_faults Sample.world0 [None; Some Scenario.offline]) []).
Proof.
  apply (download_file_chunk_failure_writes_nothing Sample.error_str "F1" "f.txt" "dest"
           (set_faults Sample.world0 [None; Some Scenario.offline]) 1 Scenario.offline []).
  - reflexivity.
  - simpl. lia.
Defined.

Lemma download_folder_empty_witness :
  Drive.download_folder Sample.error_str 1 "D1" "drafts" "dest" Scenario.docs_world =
    (Ok tt,
     set_stdout (after_call (set_fs Scenario.docs_world
                               {[ "dest" := Dir; "dest/drafts" := Dir ]}))
       (stdout Scenario.docs_world ++ ["Folder downloaded"])).
Proof.
  apply (download_folder_empty Sample.error_str 0 "D1" "drafts" "dest" Scenario.docs_world
           {[ "dest" := Dir; "dest/drafts" := Dir ]}).
  - reflexivity.
  - split; [discriminate | vm_compute; reflexivity].
  - reflexivity.
Defined.

Lemma download_folder_listing_fails_witness :
  Drive.download_folder Sample.error_str 1 "R0" "root" "dest"
    (Scenario.failing Scenario.not_found Sample.world0) =
    (Raise (with_location Error.UnableToDownload "root"
              (download_failure_text Scenario.not_found)),
     set_faults (set_fs (Scenario.failing Scenario.not_found Sample.world0)
                   {[ "dest" := Dir; "dest/root" := Dir ]}) []).
Proof.
  apply (download_folder_listing_fails Sample.error_str 0 "R0" "root" "dest"
           (Scenario.failing Scenario.not_found Sample.world0)
           {[ "dest" := Dir; "dest/root" := Dir ]} Scenario.not_found []).
  - reflexivity.
  - split; [discriminate | vm_compute; reflexivity].
Defined.

Lemma download_folder_subfolder_path_witness :
  Drive.download_folder Sample.error_str 2 "D0" "docs" "dest" Scenario.docs_world =
    (Ok tt,
     set_stdout
       (set_fs Scenario.docs_world
          {[ "dest" := Dir; "dest/docs" := Dir; "dest/docs/drafts" := Dir;
             "dest/docs/drafts/drafts" := Dir ]})
       (stdout Scenario.docs_world ++ ["Folder downloaded"; "Folder downloaded"])).
Proof.
  apply (download_folder_subfolder_path Sample.error_str 0 "D0" "docs" "dest"
           Scenario.docs_world Scenario.drafts "D1" "drafts"
           {[ "dest" := Dir; "dest/docs" := Dir ]}
           {[ "dest" := Dir; "dest/docs" := Dir; "dest/docs/drafts" := Dir ]}
           {[ "dest" := Dir; "dest/docs" := Dir; "dest/docs/drafts" := Dir;
              "dest/docs/drafts/drafts" := Dir ]}).
  - reflexivity.
  - reflexivity.
  - reflexivity.
  - reflexivity.
  - reflexivity.
  - reflexivity.
  - split; [discriminate | vm_compute; reflexivity].
  - split; [discriminate | vm_compute; reflexivity].
  - split; [discriminate | vm_compute; reflexivity].
Defined.

Lemma download_folder_stops_at_first_failure_witness :
  Drive.download_folder Sample.error_str 1 "S1" "sub" "dest"
    (set_faults Sample.world0 [None; None; Some Scenario.offline; None]) =
    (Raise (with_location Error.UnableToDownload "f.txt"
              (download_failure_text Scenario.offline)),
     set_faults
       (set_fs (set_faults Sample.world0 [None; None; Some Scenario.offline; None])
          {[ "dest" := Dir; "dest/sub" := Dir ]})
       [None]).
Proof.
  apply (download_folder_stops_at_first_failure Sample.error_str 0 "S1" "sub" "dest"
           (set_faults Sample.world0 [None; None; Some Scenario.offline; None])
           Sample.leaf "F1" "f.txt" "text/plain" []
           {[ "dest" := Dir; "dest/sub" := Dir ]} 1 Scenario.offline [None]).
  - split; [discriminate | vm_compute; reflexivity].
  - reflexivity.
  - reflexivity.
  - reflexivity.
  - reflexivity.
  - reflexivity.
  - reflexivity.
  - simpl. lia.
Defined.

(** ** More on the hub adapter *)

Section Hub.

Variable error_str : Error.AdapterError -> string.

Lemma translate_native {A} (k : Error.Kind) (repo_id : string) (e : Py.Exn) (w : World) :
  @HuggingFace.translate error_str A k repo_id (Native e) w
  = (Raise (with_location k repo_id (hub_failure_text e)), w).
Proof.
  unfold HuggingFace.translate, hub_failure_text, Drive.is_a, Drive.str_of, raise.
  repeat match goal with |- context [if ?b then _ else _] => destruct b end; reflexivity.
Qed.

Lemma library_fault (c : LibCall) (w : World) (e : Py.Exn) (rest : list (option Py.Exn)) :
  faults w = Some e :: rest ->
  HuggingFace.library c w = (Raise (Native e), set_faults (set_calls w (calls w ++ [c])) rest).
Proof.
  intros Hf. unfold HuggingFace.library, bind, log_call, remote_call.
  cbn [faults set_calls]. rewrite Hf. reflexivity.
Qed.

Lemma library_ok (c : LibCall) (w : World) :
  next_call_ok w = true ->
  HuggingFace.library c w = (Ok tt, after_call (set_calls w (calls w ++ [c]))).
Proof.
  intros Hok. unfold HuggingFace.library, bind, log_call.
  apply (remote_call_ok (set_calls w _) Hok).
Qed.

(** X24: without a resource ([None] or the empty string) [download]
    makes exactly one library call, [snapshot_download] of the whole
    repository into [local_dir]; the repository's files are not listed.
    When that call returns, the closing line is printed. *)
Theorem hub_download_whole_repository
    (repo_id local_dir : string) (resource : option string) (w : World) :
  Py.truthy resource = false ->
  let run := HuggingFace.download error_str repo_id local_dir resource w in
  calls (snd run) = calls w ++ [SnapshotDownload repo_id local_dir] /\
  (next_call_ok w = true ->
   fst run = Ok tt /\
   stdout (snd run) = stdout w ++ ["Resource downloaded to " +:+ local_dir]).
Proof.
  intros Ht run.
  assert (Hrun : run =
    (x <- try_except (HuggingFace.library (SnapshotDownload repo_id local_dir))
            (HuggingFace.translate error_str Error.UnableToDownload repo_id) ;;
     print ("Resource downloaded to " +:+ local_dir)) w).
  { subst run. unfold HuggingFace.download.
    destruct resource as [r|]; [rewrite Ht|]; reflexivity. }
  rewrite Hrun. clear Hrun run. unfold bind, try_except.
  destruct (library_run (SnapshotDownload repo_id local_dir) w) as (res & w1 & E & C & _).
  unfold next_call_ok. rewrite E. destruct res as [[]|r].
  - cbn [fst snd print set_stdout calls stdout]. split; [exact C|].
    intros _. split; [reflexivity|].
    revert E. unfold HuggingFace.library, bind, log_call, remote_call.
    cbn [faults set_calls].
    destruct (faults w) as [|[e|] rest]; intros [= <-]; reflexivity.
  - destruct (@translate_raises unit error_str Error.UnableToDownload repo_id r w1)
      as (r' & ->).
    cbn [fst snd]. split; [exact C|].
    revert E. unfold HuggingFace.library, bind, log_call, remote_call.
    cbn [faults set_calls].
    destruct (faults w) as [|[e|] rest]; intros [= <- <-] H; discriminate H.
Qed.

(** X25: whatever a library call raises inside [download], the
    exception that leaves it is an [UnableToDownload] at the repository
    id. *)
Theorem hub_download_fails_only_with_unable_to_download
    (repo_id local_dir : string) (resource : option string) (w : World) :
  match fst (HuggingFace.download error_str repo_id local_dir resource w) with
  | Ok _ => True
  | Raise r => exists message, r = with_location Error.UnableToDownload repo_id message
  end.
Proof.
  unfold HuggingFace.download. unfold bind at 1, try_except at 1.
  match goal with |- context [let (_, _) := ?m w in _] => destruct (m w) as [[[]|r] w'] end.
  - exact I.
  - destruct (@translate_raises unit error_str Error.UnableToDownload repo_id r w')
      as (r' & E).
    rewrite E. cbn [fst].
    revert E. unfold HuggingFace.translate, raise.
    repeat match goal with |- context [if ?b then _ else _] => destruct b end;
      intros [= <-]; eexists; reflexivity.
Qed.

(** X26: when listing the repository fails, the message of the
    [UnableToDownload] error is fixed by the class of the exception:
    ["Repository not found."], ["Revision not found."], the text of any
    other [HfHubHTTPError], ["Invalid arguments."] for a [ValueError], the
    text of anything else.  No file is fetched and the closing line is
    not printed. *)
Theorem hub_download_listing_fails
    (repo_id local_dir resource : string) (w : World)
    (e : Py.Exn) (rest : list (option Py.Exn)) :
  Py.truthy (Some resource) = true ->
  faults w = Some e :: rest ->
  HuggingFace.download error_str repo_id local_dir (Some resource) w =
    (Raise (with_location Error.UnableToDownload repo_id (hub_failure_text e)),
     set_faults (set_calls w (calls w ++ [ListRepoFiles repo_id])) rest).
Proof.
  intros Ht Hf. unfold HuggingFace.download. rewrite Ht.
  unfold bind at 1, try_except at 1, bind at 1, HuggingFace.list_repo_files at 1,
    bind at 1.
  rewrite (library_fault (ListRepoFiles repo_id) w e rest Hf).
  rewrite translate_native. reflexivity.
Qed.

Lemma download_loop_nothing_selected (repo_id local_dir resource : string)
    (files : list string) (w : World) :
  List.filter (fun file_path => Py.startswith file_path resource) files = [] ->
  for_each files (HuggingFace.download_one repo_id local_dir resource) w = (Ok tt, w).
Proof.
  induction files as [|f files IH]; intros Hnone; [reflexivity|].
  simpl in Hnone. simpl. unfold bind, HuggingFace.download_one at 1.
  destruct (Py.startswith f resource); [discriminate Hnone|].
  unfold ret. apply IH, Hnone.
Qed.

(** X27: when no file of the repository starts with the resource (a
    misspelt name, say), the selective [download] fetches nothing and
    still returns normally, printing ["Resource downloaded to ..."]. *)
Theorem hub_download_nothing_selected
    (repo_id local_dir resource : string) (w : World) :
  Py.truthy (Some resource) = true ->
  next_call_ok w = true ->
  List.filter (fun file_path => Py.startswith file_path resource)
    (hub_files (env w) repo_id) = [] ->
  HuggingFace.download error_str repo_id local_dir (Some resource) w =
    (Ok tt,
     set_stdout (after_call (set_calls w (calls w ++ [ListRepoFiles repo_id])))
       (stdout w ++ ["Resource downloaded to " +:+ local_dir])).
Proof.
  intros Ht Hok Hnone. unfold HuggingFace.download. rewrite Ht.
  unfold bind at 1, try_except at 1, bind at 1, HuggingFace.list_repo_files at 1,
    bind at 1.
  rewrite (library_ok (ListRepoFiles repo_id) w Hok).
  unfold bind at 1, ask at 1, ret at 1. cbn [env after_call set_faults set_calls].
  rewrite download_loop_nothing_selected by exact Hnone.
  reflexivity.
Qed.

Lemma download_loop_selective (repo_id local_dir resource : string) (files : list string) :
  forall w res w',
    for_each files (HuggingFace.download_one repo_id local_dir resource) w = (res, w') ->
    exists new,
      calls w' = calls w ++ new /\
      Forall (selective_call repo_id local_dir resource) new.
Proof.
  induction files as [|f files IH]; intros w res w' Hrun.
  - injection Hrun as <- <-. exists []. rewrite app_nil_r. split; [reflexivity | constructor].
  - simpl in Hrun. unfold bind at 1, HuggingFace.download_one at 1 in Hrun.
    destruct (Py.startswith f resource) eqn:Hsel; [|apply (IH w res w' Hrun)].
    unfold bind at 1 in Hrun.
    destruct (library_run (HfHubDownload repo_id f (Py.join local_dir "tmp")) w)
      as (r1 & w1 & E1 & C1 & _).
    assert (P1 : selective_call repo_id local_dir resource
                   (HfHubDownload repo_id f (Py.join local_dir "tmp")))
      by (simpl; auto).
    assert (P2 : selective_call repo_id local_dir resource
                   (ShutilMove (Py.join (Py.join local_dir "tmp") resource)
                      (Py.join local_dir (Py.after_last_slash resource))))
      by (simpl; auto).
    assert (P3 : selective_call repo_id local_dir resource
                   (ShutilRmtree (Py.join local_dir "tmp")))
      by reflexivity.
    rewrite E1 in Hrun. destruct r1 as [[]|r1].
    2:{ injection Hrun as <- <-. eexists [_]. split; [exact C1|]. repeat constructor; assumption. }
    unfold bind at 1 in Hrun.
    destruct (library_run (ShutilMove (Py.join (Py.join local_dir "tmp") resource)
                             (Py.join local_dir (Py.after_last_slash resource))) w1)
      as (r2 & w2 & E2 & C2 & _).
    rewrite E2 in Hrun. destruct r2 as [[]|r2].
    2:{ injection Hrun as <- <-. eexists [_; _].
        split; [rewrite C2, C1, <- app_assoc; reflexivity|]. repeat constructor; assumption. }
    destruct (library_run (ShutilRmtree (Py.join local_dir "tmp")) w2)
      as (r3 & w3 & E3 & C3 & _).
    rewrite E3 in Hrun. destruct r3 as [[]|r3].
    2:{ injection Hrun as <- <-. eexists [_; _; _].
        split; [rewrite C3, C2, C1, <- !app_assoc; reflexivity|].
        repeat constructor; assumption. }
    destruct (IH w3 res w' Hrun) as (new & Hcalls & Hall).
    eexists (_ :: _ :: _ :: new). split.
    + rewrite Hcalls, C3, C2, C1, <- !app_assoc. reflexivity.
    + repeat (constructor; [assumption|]). exact Hall.
Qed.

(** X28: every call made by a selective [download] is the listing of the
    repository, an [hf_hub_download] of a file whose path starts with the
    resource into [local_dir/tmp], a [shutil.move] from
    [local_dir/tmp/resource] to [local_dir/<last component of resource>],
    or a [shutil.rmtree] of [local_dir/tmp].  In particular the source
    and destination of each move are built from the resource, not from
    the file just fetched. *)
Theorem hub_download_moves_the_resource_path
    (repo_id local_dir resource : string) (w : World) :
  Py.truthy (Some resource) = true ->
  exists new,
    calls (snd (HuggingFace.download error_str repo_id local_dir (Some resource) w))
      = calls w ++ new /\
    Forall (selective_call repo_id local_dir resource) new.
Proof.
  intros Ht. unfold HuggingFace.download. rewrite Ht.
  unfold bind at 1, try_except at 1, bind at 1, HuggingFace.list_repo_files at 1,
    bind at 1.
  destruct (library_run (ListRepoFiles repo_id) w) as (r0 & w0 & E0 & C0 & Henv).
  rewrite E0. destruct r0 as [[]|r0].
  2:{ destruct (@translate_raises unit error_str Error.UnableToDownload repo_id r0 w0)
        as (r' & ->).
      exists [ListRepoFiles repo_id]. split; [exact C0|]. repeat constructor. }
  unfold bind at 1, ask at 1, ret at 1.
  destruct (for_each (hub_files (env w0) repo_id)
              (HuggingFace.download_one repo_id local_dir resource) w0)
    as [res w1] eqn:Hloop.
  destruct (download_loop_selective _ _ _ _ _ _ _ Hloop) as (new & Hcalls & Hall).
  exists (ListRepoFiles repo_id :: new). split.
  - destruct res as [[]|r].
    + cbn [snd print set_stdout calls]. rewrite Hcalls, C0, <- app_assoc. reflexivity.
    + destruct (@translate_raises unit error_str Error.UnableToDownload repo_id r w1)
        as (r' & ->).
      cbn [snd]. rewrite Hcalls, C0, <- app_assoc. reflexivity.
  - constructor; [reflexivity | exact Hall].
Qed.

Lemma after_last_slash_trailing (p : string) :
  Py.endswith_slash p = true -> Py.after_last_slash p = "".
Proof.
  unfold Py.endswith_slash, Py.after_last_slash. intros H.
  destruct (rev (Py.chars p)) as [|c l]; [discriminate H|].
  simpl. rewrite H. reflexivity.
Qed.

(** What [upload] does, by the outcome of its one library call. *)
Lemma hub_upload_run
    (local_resource_path repo_id commit_message : string)
    (path_in_repo revision : option string) (w : World) :
  HuggingFace.upload error_str local_resource_path repo_id commit_message
    path_in_repo revision w =
    let target :=
      match path_in_repo with
      | Some p => if Py.truthy path_in_repo then p
                  else Py.after_last_slash local_resource_path
      | None => Py.after_last_slash local_resource_path
      end in
    let c :=
      match fs w !! local_resource_path with
      | Some Dir => UploadFolder local_resource_path target repo_id commit_message revision
      | _ => UploadFile local_resource_path target repo_id commit_message revision
      end in
    let opening := "Uploading resource to " +:+ repo_id +:+ "..." in
    let w0 := set_calls (set_stdout w (stdout w ++ [opening])) (calls w ++ [c]) in
    match faults w with
    | Some e :: rest =>
        (Raise (with_location Error.UnableToUpload repo_id (hub_failure_text e)),
         set_faults w0 rest)
    | _ =>
        (Ok tt,
         set_stdout (set_faults w0 (tail (faults w)))
           (stdout w ++ [opening; "Resource uploaded to " +:+ repo_id]))
    end.
Proof.
  unfold HuggingFace.upload.
  unfold bind at 1, print at 1. unfold bind at 1, try_except at 1.
  unfold bind at 1, isdir at 1. cbn [fs set_stdout]. cbv zeta.
  destruct (fs w !! local_resource_path) as [[|content]|];
    unfold HuggingFace.library, bind, log_call, remote_call;
    cbn [faults set_calls set_stdout calls stdout];
    (destruct (faults w) as [|[e|] rest];
     [ | rewrite translate_native | ]);
    unfold print, set_stdout, set_faults, set_calls;
    cbn [env drive_created calls faults fs stdout stdin tail];
    rewrite <- ?app_assoc; reflexivity.
Qed.

(** X29: without a [path_in_repo] ([None] or empty), [upload] prints its
    opening line and makes exactly one library call, [upload_folder] or
    [upload_file], whose [path_in_repo] is the part of the local path
    after its last ["/"]; for a local path that ends with ["/"] that is
    the empty string. *)
Theorem hub_upload_default_path_in_repo
    (local_resource_path repo_id commit_message : string)
    (path_in_repo revision : option string) (w : World) :
  Py.truthy path_in_repo = false ->
  let run := HuggingFace.upload error_str local_resource_path repo_id commit_message
               path_in_repo revision w in
  let target := Py.after_last_slash local_resource_path in
  (calls (snd run) =
     calls w ++ [UploadFolder local_resource_path target repo_id commit_message revision] \/
   calls (snd run) =
     calls w ++ [UploadFile local_resource_path target repo_id commit_message revision]) /\
  stdout (snd run) !! length (stdout w)
    = Some ("Uploading resource to " +:+ repo_id +:+ "...") /\
  (Py.endswith_slash local_resource_path = true -> target = "").
Proof.
  intros Ht run target. subst run. rewrite hub_upload_run. cbv zeta.
  replace (match path_in_repo with
           | Some p => if Py.truthy path_in_repo then p
                       else Py.after_last_slash local_resource_path
           | None => Py.after_last_slash local_resource_path
           end) with target
    by (destruct path_in_repo; [rewrite Ht|]; reflexivity).
  split; [|split; [|apply after_last_slash_trailing]].
  - destruct (fs w !! local_resource_path) as [[|content]|];
      destruct (faults w) as [|[e|] rest];
      cbn [snd calls set_stdout set_faults set_calls]; auto.
  - destruct (faults w) as [|[e|] rest];
      cbn [snd stdout set_stdout set_faults set_calls];
      apply list_lookup_middle; reflexivity.
Qed.

(** X30: when the library call of [upload] raises [e], the exception
    that leaves [upload] is an [UnableToUpload] at the repository id
    whose message is fixed by the class of [e] (["Repository not
    found."], ["Revision not found."], ["Invalid arguments."] or the
    text of [e]); the opening line has been printed, the closing line
    is not. *)
Theorem hub_upload_failure
    (local_resource_path repo_id commit_message : string)
    (path_in_repo revision : option string) (w : World)
    (e : Py.Exn) (rest : list (option Py.Exn)) :
  faults w = Some e :: rest ->
  let run := HuggingFace.upload error_str local_resource_path repo_id commit_message
               path_in_repo revision w in
  fst run = Raise (with_location Error.UnableToUpload repo_id (hub_failure_text e)) /\
  stdout (snd run) = stdout w ++ ["Uploading resource to " +:+ repo_id +:+ "..."] /\
  faults (snd run) = rest.
Proof.
  intros Hf run. subst run. rewrite hub_upload_run. cbv zeta. rewrite Hf.
  repeat split; reflexivity.
Qed.

End Hub.

Lemma hub_download_whole_repository_witness :
  let run := HuggingFace.download Sample.error_str "org/repo" "out" (Some "") Sample.world0 in
  calls (snd run) = calls Sample.world0 ++ [SnapshotDownload "org/repo" "out"] /\
  (next_call_ok Sample.world0 = true ->
   fst run = Ok tt /\
   stdout (snd run) = stdout Sample.world0 ++ ["Resource downloaded to " +:+ "out"]).
Proof.
  apply (hub_download_whole_repository Sample.error_str "org/repo" "out" (Some "")
           Sample.world0).
  reflexivity.
Defined.

Lemma hub_download_listing_fails_witness :
  HuggingFace.download Sample.error_str "org/repo" "out" (Some "data")
    (Scenario.failing Scenario.no_repo Sample.world0) =
    (Raise (with_location Error.UnableToDownload "org/repo"
              (hub_failure_text Scenario.no_repo)),
     set_faults
       (set_calls (Scenario.failing Scenario.no_repo Sample.world0)
          (calls (Scenario.failing Scenario.no_repo Sample.world0) ++
           [ListRepoFiles "org/repo"])) []).
Proof.
  apply (hub_download_listing_fails Sample.error_str "org/repo" "out" "data"
           (Scenario.failing Scenario.no_repo Sample.world0) Scenario.no_repo []).
  - reflexivity.
  - reflexivity.
Defined.

Lemma hub_download_nothing_selected_witness :
  HuggingFace.download Sample.error_str "org/repo" "out" (Some "dta") Sample.world0 =
    (Ok tt,
     set_stdout
       (after_call (set_calls Sample.world0
                      (calls Sample.world0 ++ [ListRepoFiles "org/repo"])))
       (stdout Sample.world0 ++ ["Resource downloaded to " +:+ "out"])).
Proof.
  apply (hub_download_nothing_selected Sample.error_str "org/repo" "out" "dta"
           Sample.world0).
  - reflexivity.
  - reflexivity.
  - reflexivity.
Defined.

Lemma hub_download_moves_the_resource_path_witness :
  exists new,
    calls (snd (HuggingFace.download Sample.error_str "org/repo" "out" (Some "data")
                  Sample.world0))
      = calls Sample.world0 ++ new /\
    Forall (selective_call "org/repo" "out" "data") new.
Proof.
  apply (hub_download_moves_the_resource_path Sample.error_str "org/repo" "out" "data"
           Sample.world0).
  reflexivity.
Defined.

Lemma hub_upload_default_path_in_repo_witness :
  let run := HuggingFace.upload Sample.error_str "photos/" "org/repo" "add photos"
               None None (set_fs Sample.world0 Sample.photos) in
  let target := Py.after_last_slash "photos/" in
  (calls (snd run) =
     calls (set_fs Sample.world0 Sample.photos) ++
     [UploadFolder "photos/" target "org/repo" "add photos" None] \/
   calls (snd run) =
     calls (set_fs Sample.world0 Sample.photos) ++
     [UploadFile "photos/" target "org/repo" "add photos" None]) /\
  stdout (snd run) !! length (stdout (set_fs Sample.world0 Sample.photos))
    = Some ("Uploading resource to " +:+ "org/repo" +:+ "...") /\
  (Py.endswith_slash "photos/" = true -> target = "").
Proof.
  apply (hub_upload_default_path_in_repo Sample.error_str "photos/" "org/repo"
           "add photos" None None (set_fs Sample.world0 Sample.photos)).
  reflexivity.
Defined.

Lemma hub_upload_failure_witness :
  let run := HuggingFace.upload Sample.error_str "photos" "org/repo" "add photos"
               None (Some "dev")
               (Scenario.failing Scenario.no_repo (set_fs Sample.world0 Sample.photos)) in
  fst run = Raise (with_location Error.UnableToUpload "org/repo"
                     (hub_failure_text Scenario.no_repo)) /\
  stdout (snd run) =
    stdout (Scenario.failing Scenario.no_repo (set_fs Sample.world0 Sample.photos)) ++
    ["Uploading resource to " +:+ "org/repo" +:+ "..."] /\
  faults (snd run) = [].
Proof.
  apply (hub_upload_failure Sample.error_str "photos" "org/repo" "add photos" None
           (Some "dev")
           (Scenario.failing Scenario.no_repo (set_fs Sample.world0 Sample.photos))
           Scenario.no_repo []).
  reflexivity.
Defined.
